(** * File sharing server with rooms: a shallow embedding of [server.py]

    The development follows the source file
    [24560025_FinalProject/server.py]: the classes [Room] and [FileServer],
    the length-prefixed framing of requests, the command handlers and the
    per-connection loop.  Python objects that are mutated in place (the
    [rooms], [client_rooms] and [clients] dictionaries, the member set and
    the file catalogue of a room, the directory tree under [rooms/]) are
    threaded explicitly through a [State] record. *)

From Stdlib Require Import ZArith NArith List.
From Stdlib.Strings Require Import Ascii String Byte.
From stdpp Require Import gmap list fin_maps.

(** ** Python strings

    A Python [str] is a sequence of Unicode code points.  Code points are
    natural numbers ([N]); literals of the source are written with [py]. *)

Definition py (s : string) : list N :=
  map N_of_ascii (list_ascii_of_string s).

(** [str.isspace] for one code point: the characters whose bidirectional
    class is WS, B or S, or whose category is Zs. *)
Definition isspace (c : N) : bool :=
  (((9 <=? c) && (c <=? 13)) || ((28 <=? c) && (c <=? 32))
   || (c =? 133) || (c =? 160) || (c =? 5760)
   || ((8192 <=? c) && (c <=? 8202))
   || (c =? 8232) || (c =? 8233) || (c =? 8239) || (c =? 8287)
   || (c =? 12288))%N.

Fixpoint lstrip (s : list N) : list N :=
  match s with
  | [] => []
  | c :: s' => if isspace c then lstrip s' else s
  end.

Definition rstrip (s : list N) : list N := rev (lstrip (rev s)).

(** [str.strip()] with no argument. *)
Definition strip (s : list N) : list N := rstrip (lstrip s).

(** ** Paths

    A path is the list of its components; [os.path.join] of components
    that contain no separator appends them. *)

Definition path_join (p : list (list N)) (c : list N) : list (list N) :=
  p ++ [c].

Definition slash : N := 47.
Definition dot : N := 46.

(** The last component of a file name, after the last separator. *)
Fixpoint basename_acc (acc s : list N) : list N :=
  match s with
  | [] => rev acc
  | c :: s' => if (c =? slash)%N then basename_acc [] s'
               else basename_acc (c :: acc) s'
  end.

Definition basename (s : list N) : list N := basename_acc [] s.

Fixpoint drop_dots (s : list N) : list N :=
  match s with
  | [] => []
  | c :: s' => if (c =? dot)%N then drop_dots s' else s
  end.

(** The suffix of [s] that starts at its last dot, if [s] has a dot. *)
Fixpoint last_dot_suffix (s : list N) : option (list N) :=
  match s with
  | [] => None
  | c :: s' =>
      match last_dot_suffix s' with
      | Some e => Some e
      | None => if (c =? dot)%N then Some s else None
      end
  end.

(** [os.path.splitext(filename)[1]]: the extension starts at the last dot
    of the last component; dots that lead the component do not count. *)
Definition splitext_ext (filename : list N) : list N :=
  default [] (last_dot_suffix (drop_dots (basename filename))).

(** ** The data model *)

(** One entry of [Room.files], the dictionary built in [handle_upload]. *)
Record FileInfo := mkFileInfo {
  fi_id : list N;
  fi_name : list N;
  fi_filename : list N;
  fi_size : Z;
  fi_type : list N;
  fi_uploader : list N;
  fi_description : list N;
  fi_date : list N
}.

Record Room := mkRoom {
  room_id : list N;
  room_name : list N;
  room_owner : list N;
  room_members : gset (list N);
  room_files : gmap (list N) FileInfo;
  room_created_at : list N;
  room_dir : list (list N)
}.

(** The value stored per socket in [FileServer.clients]. *)
Record ClientInfo := mkClientInfo {
  ci_address : list N;
  ci_username : list N;
  ci_connected_at : list N
}.

(** The server object together with the part of the file system it uses.
    Sockets are identified by natural numbers. *)
Record State := mkState {
  clients : gmap nat ClientInfo;
  rooms : gmap (list N) Room;
  client_rooms : gmap nat (list N);
  fs_dirs : gset (list (list N));
  fs_files : gmap (list (list N)) (list byte)
}.

Definition set_clients (f : gmap nat ClientInfo → gmap nat ClientInfo)
    (st : State) : State :=
  mkState (f (clients st)) (rooms st) (client_rooms st)
          (fs_dirs st) (fs_files st).

Definition set_rooms (f : gmap (list N) Room → gmap (list N) Room)
    (st : State) : State :=
  mkState (clients st) (f (rooms st)) (client_rooms st)
          (fs_dirs st) (fs_files st).

Definition set_client_rooms (f : gmap nat (list N) → gmap nat (list N))
    (st : State) : State :=
  mkState (clients st) (rooms st) (f (client_rooms st))
          (fs_dirs st) (fs_files st).

Definition set_fs_dirs
    (f : gset (list (list N)) → gset (list (list N))) (st : State) : State :=
  mkState (clients st) (rooms st) (client_rooms st)
          (f (fs_dirs st)) (fs_files st).

Definition set_fs_files
    (f : gmap (list (list N)) (list byte) → gmap (list (list N)) (list byte))
    (st : State) : State :=
  mkState (clients st) (rooms st) (client_rooms st)
          (fs_dirs st) (f (fs_files st)).

(** ** Requests, responses and the environment *)

(** A decoded request: the JSON object sent by the client, with the
    fields of the command schema.  A field that the object does not carry
    is [None]; the record with no field stands for the empty object. *)
Record Request := mkRequest {
  req_command : option (list N);
  req_username : option (list N);
  req_room_name : option (list N);
  req_room_id : option (list N);
  req_filename : option (list N);
  req_file_size : option Z;
  req_uploader : option (list N);
  req_description : option (list N);
  req_file_id : option (list N)
}.

(** [not request]: a dictionary is false exactly when it is empty. *)
Definition request_is_empty (r : Request) : bool :=
  match req_command r, req_username r, req_room_name r, req_room_id r,
        req_filename r, req_file_size r, req_uploader r,
        req_description r, req_file_id r with
  | None, None, None, None, None, None, None, None, None => true
  | _, _, _, _, _, _, _, _, _ => false
  end.

Inductive Status := success | error | ready.

(** One element of the list built by [handle_list_rooms]. *)
Record RoomSummary := mkRoomSummary {
  rs_id : list N;
  rs_name : list N;
  rs_owner : list N;
  rs_member_count : nat;
  rs_created_at : list N
}.

(** One element of the list built by [Room.get_file_list]. *)
Record FileSummary := mkFileSummary {
  fs_id : list N;
  fs_name : list N;
  fs_size : Z;
  fs_type : list N;
  fs_uploader : list N;
  fs_date : list N
}.

(** The response dictionaries, one constructor per shape. *)
Inductive Response :=
| RespMessage (s : Status) (message : list N)
| RespRoom (s : Status) (message room_id room_name : list N)
| RespRooms (s : Status) (rooms : list RoomSummary)
| RespFiles (s : Status) (files : list FileSummary)
| RespUploaded (s : Status) (message file_id : list N)
| RespFileInfo (s : Status) (filename : list N) (file_size : Z).

Definition status (r : Response) : Status :=
  match r with
  | RespMessage s _ | RespRoom s _ _ _ | RespRooms s _ | RespFiles s _
  | RespUploaded s _ _ | RespFileInfo s _ _ => s
  end.

(** What the server writes to a socket: framed responses
    ([send_response]) and the unframed bytes of a download. *)
Inductive Output :=
| Frame (r : Response)
| Raw (bs : list byte).

(** What the environment decides during one command: the value of
    [uuid.uuid4()], the clock, the answer of [mimetypes.guess_type],
    whether the calls that the source wraps in a handler of their own
    raise ([shutil.rmtree] in [Room.cleanup], [os.remove] in
    [Room.remove_file] and after an incomplete upload), and whether
    [open(file_path, 'wb')] in [handle_upload] raises (a stored name with
    a NUL character or too long for the file system, a directory that is
    gone, a refusal of the system). *)
Record Env := mkEnv {
  env_uuid4 : list N;
  env_now : list N;
  env_guess_type : option (list N);
  env_rmtree_raises : bool;
  env_remove_raises : bool;
  env_open_raises : bool
}.

(** ** The socket as seen by [recv]

    The peer's side of a connection is the list of what is still to
    arrive: segments of bytes, and faults (a timeout or a reset, on which
    [recv] raises).  When the list is exhausted the peer has closed and
    [recv] returns the empty byte string. *)
Inductive Arrival :=
| Seg (bs : list byte)
| Fault.

Inductive RecvResult :=
| Data (bs : list byte)
| Raised.

(** [client_socket.recv(k)]: at most [k] bytes of the next segment. *)
Fixpoint recv (k : nat) (ch : list Arrival) : RecvResult * list Arrival :=
  match ch with
  | [] => (Data [], [])
  | Fault :: ch' => (Raised, ch')
  | Seg [] :: ch' => recv k ch'
  | Seg bs :: ch' =>
      (Data (take k bs),
       match drop k bs with
       | [] => ch'
       | rest => Seg rest :: ch'
       end)
  end.

(** ** Class [Room] *)

Definition rooms_root : list (list N) := [py "rooms"].

(** [os.makedirs(p, exist_ok=True)]: [p] and its ancestors exist
    afterwards. *)
Fixpoint ancestors (p : list (list N)) : list (list (list N)) :=
  match p with
  | [] => []
  | c :: p' => [c] :: map (cons c) (ancestors p')
  end.

Definition makedirs (p : list (list N)) (st : State) : State :=
  set_fs_dirs (λ d, d ∪ list_to_set (ancestors p)) st.

(** [os.path.exists]. *)
Definition path_exists (p : list (list N)) (st : State) : bool :=
  bool_decide (p ∈ fs_dirs st) || bool_decide (is_Some (fs_files st !! p)).

(** [shutil.rmtree(p)] when it does not raise: [p] and everything below
    it is gone. *)
Definition rmtree (p : list (list N)) (st : State) : State :=
  set_fs_files (filter (λ kv, ¬ p `prefix_of` kv.1))
    (set_fs_dirs (filter (λ q, ¬ p `prefix_of` q)) st).

(** [Room.__init__]: the object, and the directory it creates. *)
Definition Room_init (rid name owner now : list N) (st : State)
    : Room * State :=
  let dir := path_join rooms_root rid in
  (mkRoom rid name owner ∅ ∅ now dir, makedirs dir st).

Definition add_member (username : list N) (r : Room) : Room :=
  mkRoom (room_id r) (room_name r) (room_owner r)
         (room_members r ∪ {[username]})
         (room_files r) (room_created_at r) (room_dir r).

Definition remove_member (username : list N) (r : Room) : Room :=
  mkRoom (room_id r) (room_name r) (room_owner r)
         (room_members r ∖ {[username]})
         (room_files r) (room_created_at r) (room_dir r).

Definition set_room_files
    (f : gmap (list N) FileInfo → gmap (list N) FileInfo) (r : Room) : Room :=
  mkRoom (room_id r) (room_name r) (room_owner r) (room_members r)
         (f (room_files r)) (room_created_at r) (room_dir r).

Definition add_file (fi : FileInfo) (r : Room) : Room :=
  set_room_files (<[fi_id fi := fi]>) r.

(** [Room.remove_file] on the room stored under [rid]: the physical file
    is removed first, and the catalogue entry only when that did not
    raise. *)
Definition remove_file (rid fid : list N) (env : Env) (st : State)
    : bool * State :=
  match rooms st !! rid with
  | None => (false, st)
  | Some r =>
      match room_files r !! fid with
      | None => (false, st)
      | Some fi =>
          let file_path := path_join (room_dir r) (fi_filename fi) in
          if path_exists file_path st && env_remove_raises env
          then (false, st)
          else
            (true,
             set_rooms (<[rid := set_room_files (delete fid) r]>)
               (set_fs_files (delete file_path) st))
      end
  end.

(** [Room.get_file_list]; the source lists the entries in insertion
    order, the model in the order of the map. *)
Definition get_file_list (r : Room) : list FileSummary :=
  map (λ kv, mkFileSummary kv.1 (fi_name kv.2) (fi_size kv.2)
               (fi_type kv.2) (fi_uploader kv.2) (fi_date kv.2))
      (map_to_list (room_files r)).

(** [Room.cleanup]: a failure of [rmtree] is logged and swallowed. *)
Definition cleanup (r : Room) (env : Env) (st : State) : State :=
  if path_exists (room_dir r) st
  then if env_rmtree_raises env then st else rmtree (room_dir r) st
  else st.

(** ** Class [FileServer]: framing *)

Definition quote : list N := [34%N].

Definition Anonymous : list N := py "Anonymous".

(** [send_response]: what is written is the frame of the response. *)
Definition send_response (r : Response) : list Output := [Frame r].

(** [struct.unpack('!I', b)[0]]: four bytes, most significant first; any
    other number of bytes raises. *)
Definition unpack_be32 (bs : list byte) : option Z :=
  match bs with
  | [b0; b1; b2; b3] =>
      Some (Z.of_N (Byte.to_N b0) * 16777216 + Z.of_N (Byte.to_N b1) * 65536
            + Z.of_N (Byte.to_N b2) * 256 + Z.of_N (Byte.to_N b3))%Z
  | _ => None
  end.

Definition max_frame : Z := (10 * 1024 * 1024)%Z.

Inductive LoopResult :=
| Complete (data : list byte)
| Interrupted
| OutOfFuel.

(** The loop [while len(data) < length] of [receive_request]. *)
Fixpoint receive_data (fuel : nat) (len : Z) (data : list byte)
    (ch : list Arrival) : LoopResult * list Arrival :=
  if (Z.of_nat (length data) <? len)%Z then
    match fuel with
    | O => (OutOfFuel, ch)
    | S fuel' =>
        match recv (Z.to_nat (Z.min 8192 (len - Z.of_nat (length data)))) ch with
        | (Raised, ch') => (Interrupted, ch')
        | (Data [], ch') => (Interrupted, ch')
        | (Data chunk, ch') => receive_data fuel' len (data ++ chunk) ch'
        end
    end
  else (Complete data, ch).

(** [receive_request]; [None] is the source's [return None].  The
    decoding of the payload ([json.loads] after [decode('utf-8')]) is the
    argument [json_loads], [None] when it raises. *)
Definition receive_request (json_loads : list byte → option Request)
    (ch : list Arrival) : option Request * list Arrival :=
  match recv 4 ch with
  | (Raised, ch1) => (None, ch1)
  | (Data [], ch1) => (None, ch1)
  | (Data length_data, ch1) =>
      match unpack_be32 length_data with
      | None => (None, ch1)
      | Some len =>
          if (len >? max_frame)%Z then (None, ch1)
          else
            match receive_data (Z.to_nat len) len [] ch1 with
            | (Complete data, ch2) => (json_loads data, ch2)
            | (_, ch2) => (None, ch2)
            end
      end
  end.

(** ** Class [FileServer]: the command handlers

    A handler takes the state, the socket, the request, the environment
    and what is still to arrive on the socket; it returns the new state,
    what it wrote, and what is left to arrive. *)

Definition handle_create_room (st : State) (s : nat) (req : Request)
    (env : Env) : State * list Output :=
  let room_name := strip (default [] (req_room_name req)) in
  let username := default Anonymous (req_username req) in
  if bool_decide (room_name = []) then
    (st, send_response (RespMessage error (py "Room name is required")))
  else if (50 <? length room_name)%nat then
    (st, send_response
           (RespMessage error (py "Room name too long (max 50 characters)")))
  else
    let rid := take 8 (env_uuid4 env) in
    let '(room, st1) := Room_init rid room_name username (env_now env) st in
    let room := add_member username room in
    let st2 := set_client_rooms (<[s := rid]>)
                 (set_rooms (<[rid := room]>) st1) in
    (st2, send_response
            (RespRoom success
               (py "Room " ++ quote ++ room_name ++ quote
                ++ py " created successfully")
               rid room_name)).

Definition handle_join_room (st : State) (s : nat) (req : Request)
    : State * list Output :=
  let rid := strip (default [] (req_room_id req)) in
  let username := default Anonymous (req_username req) in
  if bool_decide (rid = []) then
    (st, send_response (RespMessage error (py "Room ID is required")))
  else
    match rooms st !! rid with
    | None => (st, send_response (RespMessage error (py "Room not found")))
    | Some _ =>
        let st1 :=
          match client_rooms st !! s with
          | Some old_rid =>
              match rooms st !! old_rid with
              | Some old => set_rooms (<[old_rid := remove_member username old]>) st
              | None => st
              end
          | None => st
          end in
        match rooms st1 !! rid with
        | None => (st1, send_response
                          (RespMessage error (py "Failed to join room")))
        | Some room =>
            let room := add_member username room in
            let st2 := set_client_rooms (<[s := rid]>)
                         (set_rooms (<[rid := room]>) st1) in
            (st2, send_response
                    (RespRoom success
                       (py "Joined room " ++ quote ++ room_name room ++ quote
                        ++ py " successfully")
                       rid (room_name room)))
        end
    end.

Definition handle_leave_room (st : State) (s : nat) (req : Request)
    : State * list Output :=
  match clients st !! s with
  | None => (st, send_response
                   (RespMessage error (py "Failed to leave room")))
  | Some ci =>
      let username := ci_username ci in
      match client_rooms st !! s with
      | None => (st, send_response
                       (RespMessage success (py "Not in any room")))
      | Some rid =>
          let st1 :=
            match rooms st !! rid with
            | Some r => set_rooms (<[rid := remove_member username r]>) st
            | None => st
            end in
          (set_client_rooms (delete s) st1,
           send_response (RespMessage success (py "Left room successfully")))
      end
  end.

Definition handle_delete_room (st : State) (s : nat) (req : Request)
    (env : Env) : State * list Output :=
  let rid := strip (default [] (req_room_id req)) in
  match clients st !! s with
  | None => (st, send_response
                   (RespMessage error (py "Failed to delete room")))
  | Some ci =>
      let username := ci_username ci in
      match (if bool_decide (rid = []) then None else rooms st !! rid) with
      | None => (st, send_response (RespMessage error (py "Room not found")))
      | Some room =>
          if bool_decide (room_owner room ≠ username) then
            (st, send_response
                   (RespMessage error
                      (py "Only the room owner can delete the room")))
          else
            let st1 := set_client_rooms (filter (λ kv, kv.2 ≠ rid)) st in
            let st2 := cleanup room env st1 in
            let st3 := set_rooms (delete rid) st2 in
            (st3, send_response
                    (RespMessage success
                       (py "Room " ++ quote ++ room_name room ++ quote
                        ++ py " deleted successfully")))
      end
  end.

Definition room_summary (kv : list N * Room) : RoomSummary :=
  mkRoomSummary kv.1 (room_name kv.2) (room_owner kv.2)
                (size (room_members kv.2)) (room_created_at kv.2).

(** The list built by [handle_list_rooms]; the source lists the rooms in
    insertion order, the model in the order of the map. *)
Definition rooms_list (st : State) : list RoomSummary :=
  map room_summary (map_to_list (rooms st)).

Definition handle_list_rooms (st : State) (s : nat) (req : Request)
    : State * list Output :=
  (st, send_response (RespRooms success (rooms_list st))).

Definition max_upload : Z := (500 * 1024 * 1024)%Z.

(** How the receiving loop of [handle_upload] ended. *)
Record Received := mkReceived {
  rc_raised : bool;
  rc_out_of_fuel : bool;
  rc_received : Z;
  rc_state : State;
  rc_channel : list Arrival
}.

(** [f.write(chunk)] on the file opened at [file_path]. *)
Definition write_chunk (file_path : list (list N)) (chunk : list byte)
    (st : State) : State :=
  set_fs_files (λ m, <[file_path := default [] (m !! file_path) ++ chunk]> m) st.

(** The loop [while received < file_size] of [handle_upload]. *)
Fixpoint receive_file (fuel : nat) (file_size received : Z)
    (file_path : list (list N)) (st : State) (ch : list Arrival) : Received :=
  if (received <? file_size)%Z then
    match fuel with
    | O => mkReceived false true received st ch
    | S fuel' =>
        let chunk_size := Z.min 8192 (file_size - received) in
        match recv (Z.to_nat chunk_size) ch with
        | (Raised, ch') => mkReceived true false received st ch'
        | (Data [], ch') => mkReceived false false received st ch'
        | (Data chunk, ch') =>
            receive_file fuel' file_size
              (received + Z.of_nat (length chunk))%Z file_path
              (write_chunk file_path chunk st) ch'
        end
    end
  else mkReceived false false received st ch.

Definition upload_failed : list Output :=
  send_response (RespMessage error (py "Upload failed")).

Definition handle_upload (st : State) (s : nat) (req : Request) (env : Env)
    (ch : list Arrival) : State * list Output * list Arrival :=
  match client_rooms st !! s with
  | None =>
      (st, send_response
             (RespMessage error (py "Must join a room before uploading files")),
       ch)
  | Some rid =>
      match rooms st !! rid with
      | None => (st, send_response (RespMessage error (py "Room not found")), ch)
      | Some room =>
          let filename := default [] (req_filename req) in
          let file_size := default 0%Z (req_file_size req) in
          let uploader := default Anonymous (req_uploader req) in
          let description := default [] (req_description req) in
          if bool_decide (filename = []) then
            (st, send_response (RespMessage error (py "Filename is required")),
             ch)
          else if (file_size >? max_upload)%Z then
            (st, send_response
                   (RespMessage error (py "File too large (max 500MB)")), ch)
          else
            let file_id := take 12 (env_uuid4 env) in
            let file_extension := splitext_ext filename in
            let stored_filename := file_id ++ file_extension in
            let file_path := path_join (room_dir room) stored_filename in
            let ready_out :=
              send_response (RespMessage ready (py "Ready to receive file")) in
            if env_open_raises env then (st, ready_out ++ upload_failed, ch)
            else
              let opened := set_fs_files (<[file_path := []]>) st in
              let rc := receive_file (Z.to_nat file_size) file_size 0 file_path
                          opened ch in
              if rc_raised rc || rc_out_of_fuel rc then
                (rc_state rc, ready_out ++ upload_failed, rc_channel rc)
              else if bool_decide (rc_received rc ≠ file_size) then
                let st1 :=
                  if env_remove_raises env then rc_state rc
                  else set_fs_files (delete file_path) (rc_state rc) in
                (st1,
                 ready_out ++
                 send_response
                   (RespMessage error (py "Incomplete file transfer")),
                 rc_channel rc)
              else
                let file_type :=
                  match env_guess_type env with
                  | Some t => if bool_decide (t = []) then
                                py "application/octet-stream" else t
                  | None => py "application/octet-stream"
                  end in
                let file_info :=
                  mkFileInfo file_id filename stored_filename file_size
                             file_type uploader description (env_now env) in
                (set_rooms (<[rid := add_file file_info room]>) (rc_state rc),
                 ready_out ++
                 send_response
                   (RespUploaded success (py "File uploaded successfully")
                                 file_id),
                 rc_channel rc)
      end
  end.

Definition chunk_limit : nat := Z.to_nat 8192.

(** The pieces of at most 8192 bytes that [handle_download] sends. *)
Fixpoint chunks (fuel : nat) (content : list byte) : list Output :=
  match fuel, content with
  | _, [] => []
  | O, _ => []
  | S fuel', _ =>
      Raw (take chunk_limit content) :: chunks fuel' (drop chunk_limit content)
  end.

Definition handle_download (st : State) (s : nat) (req : Request)
    : State * list Output :=
  match client_rooms st !! s with
  | None =>
      (st, send_response
             (RespMessage error
                (py "Must join a room before downloading files")))
  | Some rid =>
      match rooms st !! rid with
      | None => (st, send_response (RespMessage error (py "Room not found")))
      | Some room =>
          let file_id := default [] (req_file_id req) in
          match room_files room !! file_id with
          | None =>
              (st, send_response (RespMessage error (py "File not found")))
          | Some file_info =>
              let file_path :=
                path_join (room_dir room) (fi_filename file_info) in
              if negb (path_exists file_path st) then
                (st, send_response
                       (RespMessage error (py "File not found on disk")))
              else
                match fs_files st !! file_path with
                | None =>
                    (st,
                     send_response
                       (RespFileInfo success (fi_name file_info)
                                     (fi_size file_info))
                     ++ send_response
                          (RespMessage error (py "Download failed")))
                | Some content =>
                    (st,
                     send_response
                       (RespFileInfo success (fi_name file_info)
                                     (fi_size file_info))
                     ++ chunks (length content) content)
                end
          end
      end
  end.

Definition handle_delete_file (st : State) (s : nat) (req : Request)
    (env : Env) : State * list Output :=
  match client_rooms st !! s with
  | None =>
      (st, send_response
             (RespMessage error (py "Must join a room before deleting files")))
  | Some rid =>
      match rooms st !! rid with
      | None => (st, send_response (RespMessage error (py "Room not found")))
      | Some room =>
          let file_id := default [] (req_file_id req) in
          match room_files room !! file_id with
          | None =>
              (st, send_response (RespMessage error (py "File not found")))
          | Some _ =>
              let '(ok, st1) := remove_file rid file_id env st in
              if ok then
                (st1, send_response
                        (RespMessage success (py "File deleted successfully")))
              else
                (st1, send_response
                        (RespMessage error (py "Failed to delete file")))
          end
      end
  end.

Definition handle_list_files (st : State) (s : nat) (req : Request)
    : State * list Output :=
  match client_rooms st !! s with
  | None => (st, send_response (RespFiles success []))
  | Some rid =>
      match rooms st !! rid with
      | None => (st, send_response (RespFiles success []))
      | Some room => (st, send_response (RespFiles success (get_file_list room)))
      end
  end.

(** ** Class [FileServer]: the connection loop *)

Inductive Command :=
| create_room | join_room | leave_room | delete_room | list_rooms
| upload | download | delete_file | list_files.

(** The name of each command on the wire. *)
Definition command_name (c : Command) : list N :=
  match c with
  | create_room => py "create_room"
  | join_room => py "join_room"
  | leave_room => py "leave_room"
  | delete_room => py "delete_room"
  | list_rooms => py "list_rooms"
  | upload => py "upload"
  | download => py "download"
  | delete_file => py "delete"
  | list_files => py "list"
  end.

(** [self.clients[client_socket]['username'] = request['username']],
    done when the request carries a user name. *)
Definition update_username (st : State) (s : nat) (ci : ClientInfo)
    (req : Request) : State :=
  match req_username req with
  | Some u =>
      set_clients
        (<[s := mkClientInfo (ci_address ci) u (ci_connected_at ci)]>) st
  | None => st
  end.

(** The body of the loop of [handle_client] once a request is decoded:
    the user name is updated, then the command is dispatched.  [None] is
    an exception that leaves the loop (the socket is not in [clients]). *)
Definition serve_request (st : State) (s : nat) (req : Request) (env : Env)
    (ch : list Arrival) : option (State * list Output * list Arrival) :=
  let command := req_command req in
  match clients st !! s with
  | None => None
  | Some ci =>
      let st := update_username st s ci req in
      let cmd_is c := bool_decide (command = Some (command_name c)) in
      let plain (r : State * list Output) := Some (r, ch) in
      if cmd_is create_room then plain (handle_create_room st s req env)
      else if cmd_is join_room then plain (handle_join_room st s req)
      else if cmd_is leave_room then plain (handle_leave_room st s req)
      else if cmd_is delete_room then plain (handle_delete_room st s req env)
      else if cmd_is list_rooms then plain (handle_list_rooms st s req)
      else if cmd_is upload then Some (handle_upload st s req env ch)
      else if cmd_is download then plain (handle_download st s req)
      else if cmd_is delete_file then plain (handle_delete_file st s req env)
      else if cmd_is list_files then plain (handle_list_files st s req)
      else
        plain (st, send_response
                     (RespMessage error
                        (py "Unknown command: "
                         ++ default (py "None") command)))
  end.

(** [disconnect_client]; an exception inside it is logged and ends it. *)
Definition disconnect_client (st : State) (s : nat) : State :=
  let after_room :=
    match client_rooms st !! s with
    | Some rid =>
        match rooms st !! rid with
        | Some r =>
            match clients st !! s with
            | Some ci =>
                Some (set_client_rooms (delete s)
                        (set_rooms
                           (<[rid := remove_member (ci_username ci) r]>) st))
            | None => None
            end
        | None => Some (set_client_rooms (delete s) st)
        end
    | None => Some st
    end in
  match after_room with
  | None => st
  | Some st1 => set_clients (delete s) st1
  end.

(** [handle_client]: one environment per iteration of the loop; when
    they are used up the server has stopped running. *)
Fixpoint handle_client (json_loads : list byte → option Request)
    (envs : list Env) (st : State) (s : nat) (ch : list Arrival)
    : State * list Output :=
  match envs with
  | [] => (disconnect_client st s, [])
  | env :: envs' =>
      match receive_request json_loads ch with
      | (None, _) => (disconnect_client st s, [])
      | (Some req, ch1) =>
          if request_is_empty req then (disconnect_client st s, [])
          else
            match serve_request st s req env ch1 with
            | None => (disconnect_client st s, [])
            | Some (st1, out, ch2) =>
                let '(st2, out') := handle_client json_loads envs' st1 s ch2 in
                (st2, out ++ out')
            end
      end
  end.

(** [FileServer.__init__]: empty dictionaries, and the base directory. *)
Definition FileServer_init : State :=
  mkState ∅ ∅ ∅ {[rooms_root]} ∅.

(** The registration of an accepted connection in [start_server]. *)
Definition accept_client (s : nat) (address now : list N) (st : State)
    : State :=
  set_clients (<[s := mkClientInfo address Anonymous now]>) st.

(** ** Auxiliary notions used in the statements *)

(** The registry: the two shared dictionaries of the server. *)
Definition registry (st : State)
    : gmap (list N) Room * gmap nat (list N) :=
  (rooms st, client_rooms st).

(** The storage: directories and files on disk. *)
Definition storage (st : State)
    : gset (list (list N)) * gmap (list (list N)) (list byte) :=
  (fs_dirs st, fs_files st).

(** Every room is stored under its own identifier. *)
Definition ids_match (st : State) : Prop :=
  ∀ k r, rooms st !! k = Some r → room_id r = k.

(** A string made of white space only (the empty string included). *)
Definition blank (name : list N) : Prop :=
  Forall (λ c, isspace c = true) name.

(** The bytes that arrive before the peer closes or a fault occurs. *)
Fixpoint available (ch : list Arrival) : list byte :=
  match ch with
  | [] => []
  | Fault :: _ => []
  | Seg bs :: ch' => bs ++ available ch'
  end.

(** Whether the arrivals end in a fault rather than in a close. *)
Fixpoint faulty (ch : list Arrival) : bool :=
  match ch with
  | [] => false
  | Fault :: _ => true
  | Seg _ :: ch' => faulty ch'
  end.

(** A request that carries only a command and a user name. *)
Definition simple_request (c : list N) (u : option (list N)) : Request :=
  mkRequest (Some c) u None None None None None None None.

Definition default_env : Env :=
  mkEnv (py "0f8fad5b-d9cb-469f-a165-70867728950e")
        (py "2025-01-01 00:00:00") None false false false.

(** A server with one accepted connection, on socket 1. *)
Definition one_client : State :=
  accept_client 1 (py "10.0.0.1") (py "2025-01-01 00:00:00") FileServer_init.

(** The handler that [handle_client] runs for each command. *)
Definition run_command (c : Command) (st : State) (s : nat) (req : Request)
    (env : Env) (ch : list Arrival) : State * list Output * list Arrival :=
  match c with
  | create_room => (handle_create_room st s req env, ch)
  | join_room => (handle_join_room st s req, ch)
  | leave_room => (handle_leave_room st s req, ch)
  | delete_room => (handle_delete_room st s req env, ch)
  | list_rooms => (handle_list_rooms st s req, ch)
  | upload => handle_upload st s req env ch
  | download => (handle_download st s req, ch)
  | delete_file => (handle_delete_file st s req env, ch)
  | list_files => (handle_list_files st s req, ch)
  end.

(** What a session that is bound to no room is answered on the commands
    that work on the files of a room. *)
Definition outside_room_reply (c : Command) : option Response :=
  match c with
  | upload =>
      Some (RespMessage error (py "Must join a room before uploading files"))
  | download =>
      Some (RespMessage error (py "Must join a room before downloading files"))
  | delete_file =>
      Some (RespMessage error (py "Must join a room before deleting files"))
  | list_files => Some (RespFiles success [])
  | _ => None
  end.

(** Where [handle_upload] stores the file it receives: the room
    directory joined with the file identifier and the extension of the
    original name. *)
Definition upload_path (room : Room) (env : Env) (filename : list N)
    : list (list N) :=
  path_join (room_dir room) (take 12 (env_uuid4 env) ++ splitext_ext filename).

Definition ready_frame : Output :=
  Frame (RespMessage ready (py "Ready to receive file")).

(** A session serving a list of decoded requests that carry no raw
    bytes; [None] when the loop is left by an exception. *)
Fixpoint serve_requests (st : State) (s : nat)
    (reqs : list (Request * Env)) : option State :=
  match reqs with
  | [] => Some st
  | (req, env) :: reqs' =>
      match serve_request st s req env [] with
      | Some (st', _, _) => serve_requests st' s reqs'
      | None => None
      end
  end.

(** ** Concrete requests and states used in the examples *)

Definition create_request (name user : list N) : Request :=
  mkRequest (Some (py "create_room")) (Some user) (Some name)
            None None None None None None.

Definition room_request (c rid user : list N) : Request :=
  mkRequest (Some c) (Some user) None (Some rid) None None None None None.

Definition upload_request (filename : list N) (size : Z) (user : list N)
    : Request :=
  mkRequest (Some (py "upload")) None None None (Some filename) (Some size)
            (Some user) None None.

Definition other_env : Env :=
  mkEnv (py "7c9e6679-7425-40de-944b-e07fc1f90ae7")
        (py "2025-01-01 00:05:00") None false false false.

Definition failing_rmtree : Env :=
  mkEnv (env_uuid4 other_env) (env_now other_env) None true false false.

Definition failing_remove : Env :=
  mkEnv (env_uuid4 other_env) (env_now other_env) None false true false.

Definition failing_open : Env :=
  mkEnv (env_uuid4 other_env) (env_now other_env) None false false true.

Definition one_client_info : ClientInfo :=
  mkClientInfo (py "10.0.0.1") Anonymous (py "2025-01-01 00:00:00").

Definition alice_info : ClientInfo :=
  mkClientInfo (py "10.0.0.1") (py "alice") (py "2025-01-01 00:00:00").

(** The room that alice creates first. *)
Definition alpha_room : Room :=
  mkRoom (py "0f8fad5b") (py "Alpha") (py "alice") {[py "alice"]} ∅
         (py "2025-01-01 00:00:00") [py "rooms"; py "0f8fad5b"].

(** The server after alice, on socket 1, has created the room Alpha. *)
Definition alice_in_alpha : State :=
  mkState {[1 := alice_info]} {[py "0f8fad5b" := alpha_room]}
          {[1 := py "0f8fad5b"]}
          {[ [py "rooms"]; [py "rooms"; py "0f8fad5b"] ]} ∅.

(** Three bytes of a file. *)
Definition abc : list byte := [x61; x62; x63].


(** A decoder for the examples: the payload is taken as the command. *)
Definition payload_as_command (bs : list byte) : option Request :=
  Some (simple_request (map Byte.to_N bs) None).

(** ** The header of a frame as it is written *)

Definition byte_of_Z (z : Z) : byte := default x00 (Byte.of_N (Z.to_N z)).

(** [struct.pack('!I', n)]: the four bytes of [n], most significant
    first; a number that does not fit in 32 bits, or is negative,
    raises. *)
Definition pack_be32 (n : Z) : option (list byte) :=
  if ((0 <=? n) && (n <? 4294967296))%Z then
    Some [byte_of_Z (n / 16777216); byte_of_Z (n / 65536 mod 256);
          byte_of_Z (n / 256 mod 256); byte_of_Z (n mod 256)]
  else None.

(** The bytes that [send_response] passes to [send] for the encoded
    response [response_data]: its length, packed, and then the data.
    [None] when packing raises, which [send_response] logs. *)
Definition frame_bytes (response_data : list byte) : option (list byte) :=
  match pack_be32 (Z.of_nat (length response_data)) with
  | Some length_data => Some (length_data ++ response_data)
  | None => None
  end.

(** ** Further notions used in the statements *)

(** Every session that is bound to a room is bound to a room of the
    registry. *)
Definition bindings_valid (st : State) : Prop :=
  ∀ s rid, client_rooms st !! s = Some rid → is_Some (rooms st !! rid).

(** Every room of the registry has its directory, the one named by its
    key under [rooms/], and that directory is on disk. *)
Definition dirs_exist (st : State) : Prop :=
  ∀ k r, rooms st !! k = Some r →
         room_dir r = path_join rooms_root k ∧ room_dir r ∈ fs_dirs st.

(** The payloads of the raw pieces of an output. *)
Fixpoint raw_bytes (out : list Output) : list byte :=
  match out with
  | [] => []
  | Raw bs :: out' => bs ++ raw_bytes out'
  | Frame _ :: out' => raw_bytes out'
  end.

(** A second connection, on socket 2, beside the one of alice. *)
Definition two_clients : State :=
  accept_client 2 (py "10.0.0.2") (py "2025-01-01 00:01:00") alice_in_alpha.

Definition bob_info : ClientInfo :=
  mkClientInfo (py "10.0.0.2") Anonymous (py "2025-01-01 00:01:00").

(** The server after alice has uploaded the three bytes [abc] as
    [note.txt] to her room. *)
Definition alice_with_note : State :=
  (handle_upload alice_in_alpha 1
     (upload_request (py "note.txt") 3 (py "alice")) other_env [Seg abc]).1.1.

Definition file_request (c fid : list N) : Request :=
  mkRequest (Some c) None None None None None None None (Some fid).

(** The entry of that file in the catalogue of the room. *)
Definition note_info : FileInfo :=
  mkFileInfo (py "7c9e6679-742") (py "note.txt") (py "7c9e6679-742.txt") 3
             (py "application/octet-stream") (py "alice") []
             (py "2025-01-01 00:05:00").

(** The dictionary [file_info] that [handle_upload] builds for a file
    that was received in full. *)
Definition uploaded_info (req : Request) (env : Env) : FileInfo :=
  let filename := default [] (req_filename req) in
  let file_id := take 12 (env_uuid4 env) in
  mkFileInfo file_id filename (file_id ++ splitext_ext filename)
             (default 0%Z (req_file_size req))
             match env_guess_type env with
             | Some t => if bool_decide (t = []) then
                           py "application/octet-stream" else t
             | None => py "application/octet-stream"
             end
             (default Anonymous (req_uploader req))
             (default [] (req_description req)) (env_now env).

(** * Properties *)

(** ** Strings and paths *)

Lemma lstrip_blank s : blank s → lstrip s = [].
Proof.
  induction 1 as [|c s Hc _ IH]; simpl; [done|]. by rewrite Hc.
Qed.

Lemma strip_blank s : blank s → strip s = [].
Proof. intros H. unfold strip. by rewrite (lstrip_blank s H). Qed.

Example strip_examples :
  strip (py "  Alpha  ") = py "Alpha"
  ∧ strip (py " a b ") = py "a b"
  ∧ strip [9; 10; 160; 12288]%N = [].
Proof. repeat split; reflexivity. Qed.

Example splitext_examples :
  splitext_ext (py "note.txt") = py ".txt"
  ∧ splitext_ext (py ".bashrc") = []
  ∧ splitext_ext (py "a.b/c") = []
  ∧ splitext_ext (py "dir/..x.tar.gz") = py ".gz".
Proof. repeat split; reflexivity. Qed.

(** ** The dispatcher *)

Lemma update_username_registry st s ci req :
  registry (update_username st s ci req) = registry st.
Proof. unfold update_username. by destruct (req_username req). Qed.

Lemma update_username_storage st s ci req :
  storage (update_username st s ci req) = storage st.
Proof. unfold update_username. by destruct (req_username req). Qed.

Lemma update_username_client_rooms st s ci req :
  client_rooms (update_username st s ci req) = client_rooms st.
Proof. unfold update_username. by destruct (req_username req). Qed.

Lemma update_username_rooms st s ci req :
  rooms (update_username st s ci req) = rooms st.
Proof. unfold update_username. by destruct (req_username req). Qed.

Lemma update_username_lookup st s ci req u :
  req_username req = Some u →
  ci_username <$> clients (update_username st s ci req) !! s = Some u.
Proof.
  intros Hu. unfold update_username. rewrite Hu. simpl.
  by rewrite lookup_insert_eq.
Qed.

Lemma command_name_inj c1 c2 : command_name c1 = command_name c2 → c1 = c2.
Proof. destruct c1, c2; vm_compute; congruence. Qed.

(** Decides the comparisons of a known command name with the names that
    [handle_client] tests in turn. *)
Ltac dispatch :=
  repeat first
    [ rewrite bool_decide_eq_true_2 by reflexivity
    | rewrite bool_decide_eq_false_2 by (vm_compute; congruence) ];
  cbv beta iota.

(** The chain of comparisons in [handle_client] selects the handler of
    the command that the request names. *)
Lemma serve_request_dispatch c st s ci req env ch :
  clients st !! s = Some ci →
  req_command req = Some (command_name c) →
  serve_request st s req env ch =
    Some (run_command c (update_username st s ci req) s req env ch).
Proof.
  intros Hc Hcmd. unfold serve_request. rewrite Hc, Hcmd. cbv zeta.
  destruct c; dispatch; reflexivity.
Qed.

(** Conversely, whatever is served is the result of a handler or the
    answer to an unknown command. *)
Lemma serve_request_inv st s req env ch res :
  serve_request st s req env ch = Some res →
  ∃ ci, clients st !! s = Some ci
    ∧ ((∃ c, res = run_command c (update_username st s ci req) s req env ch)
       ∨ ∃ r, res = (update_username st s ci req, [Frame r], ch)).
Proof.
  unfold serve_request. destruct (clients st !! s) as [ci|]; [|done].
  cbv zeta. intros H. exists ci. split; [done|].
  repeat match type of H with
  | context [bool_decide (req_command req = ?c)] =>
      destruct (bool_decide (req_command req = c))
  end; injection H as <-.
  - left. by exists create_room.
  - left. by exists join_room.
  - left. by exists leave_room.
  - left. by exists delete_room.
  - left. by exists list_rooms.
  - left. by exists upload.
  - left. by exists download.
  - left. by exists delete_file.
  - left. by exists list_files.
  - right. by eexists.
Qed.

(** As long as requests are served the loop goes on to the next one. *)
Lemma handle_client_continues json_loads env envs st s ch req ch1 st1 out ch2 :
  receive_request json_loads ch = (Some req, ch1) →
  request_is_empty req = false →
  serve_request st s req env ch1 = Some (st1, out, ch2) →
  handle_client json_loads (env :: envs) st s ch =
    ((handle_client json_loads envs st1 s ch2).1,
     out ++ (handle_client json_loads envs st1 s ch2).2).
Proof.
  intros Hrx Hne Hserve. simpl. rewrite Hrx, Hne, Hserve.
  by destruct (handle_client _ _ _ _ _).
Qed.

(** ** Rooms and their listing *)

Lemma elem_of_rooms_list st x :
  x ∈ rooms_list st ↔ ∃ k r, rooms st !! k = Some r ∧ x = room_summary (k, r).
Proof.
  unfold rooms_list. rewrite list_elem_of_In, in_map_iff. split.
  - intros ([k r] & <- & Hin). exists k, r. split; [|done].
    by apply elem_of_map_to_list, list_elem_of_In.
  - intros (k & r & Hl & ->). exists (k, r). split; [done|].
    by apply list_elem_of_In, elem_of_map_to_list.
Qed.

Lemma add_member_present u r : u ∈ room_members r → add_member u r = r.
Proof.
  intros Hu. destruct r as [i n o m f c d]; unfold add_member; simpl in *.
  f_equal. apply set_eq. intros x.
  rewrite elem_of_union, elem_of_singleton.
  split; [intros [?| ->]; done|by left].
Qed.

Lemma add_remove_member_present u r :
  u ∈ room_members r → add_member u (remove_member u r) = r.
Proof.
  intros Hu. destruct r as [i n o m f c d].
  unfold add_member, remove_member; simpl in *. f_equal.
  apply set_eq. intros x.
  rewrite elem_of_union, elem_of_difference, elem_of_singleton.
  destruct (decide (x = u)) as [->|]; tauto.
Qed.

Lemma remove_member_absent u r : u ∉ room_members (remove_member u r).
Proof.
  unfold remove_member. simpl.
  intros [_ H]%elem_of_difference. apply H. by apply elem_of_singleton.
Qed.

(** ** Every room is stored under its identifier *)

Lemma ids_match_init : ids_match FileServer_init.
Proof. intros k r. unfold FileServer_init. simpl. by rewrite lookup_empty. Qed.

Lemma ids_match_same_rooms st st' :
  rooms st' = rooms st → ids_match st → ids_match st'.
Proof. unfold ids_match. by intros ->. Qed.

Lemma ids_match_insert st rid r :
  ids_match st → room_id r = rid → ids_match (set_rooms (<[rid := r]>) st).
Proof.
  intros Hids Hr k r'. simpl. destruct (decide (rid = k)) as [->|Hk].
  - rewrite lookup_insert_eq. by intros [= <-].
  - rewrite lookup_insert_ne by done. apply Hids.
Qed.

Lemma receive_file_frame fuel file_size received file_path st ch :
  clients (rc_state (receive_file fuel file_size received file_path st ch))
    = clients st
  ∧ rooms (rc_state (receive_file fuel file_size received file_path st ch))
      = rooms st
  ∧ client_rooms
      (rc_state (receive_file fuel file_size received file_path st ch))
      = client_rooms st
  ∧ fs_dirs (rc_state (receive_file fuel file_size received file_path st ch))
      = fs_dirs st.
Proof.
  revert received st ch.
  induction fuel as [|fuel IH]; intros received st ch; simpl.
  - by destruct (received <? file_size)%Z.
  - destruct (received <? file_size)%Z; [|done].
    destruct (recv _ ch) as [[[|b chunk]|] ch']; try done.
    destruct (IH (received + Z.of_nat (length (b :: chunk)))%Z
                 (write_chunk file_path (b :: chunk) st) ch')
      as (-> & -> & -> & ->).
    done.
Qed.

Lemma cleanup_frame r env st :
  clients (cleanup r env st) = clients st
  ∧ rooms (cleanup r env st) = rooms st
  ∧ client_rooms (cleanup r env st) = client_rooms st.
Proof.
  unfold cleanup. destruct (path_exists _ _); [|done].
  by destruct (env_rmtree_raises env).
Qed.

Lemma ids_match_create_room st s req env :
  ids_match st → ids_match (handle_create_room st s req env).1.
Proof.
  intros Hids. unfold handle_create_room.
  destruct (bool_decide _); [done|]. destruct (_ <? _); [done|]. simpl.
  intros k r. simpl. destruct (decide (take 8 (env_uuid4 env) = k)) as [<-|Hk].
  - rewrite lookup_insert_eq. by intros [= <-].
  - rewrite lookup_insert_ne by done. apply Hids.
Qed.

Lemma ids_match_join_room st s req :
  ids_match st → ids_match (handle_join_room st s req).1.
Proof.
  intros Hids. unfold handle_join_room.
  destruct (bool_decide _); [done|].
  destruct (rooms st !! _) as [r0|] eqn:Hr0; [|done].
  set (st1 := match client_rooms st !! s with Some _ => _ | None => _ end).
  assert (ids_match st1) as Hids1.
  { subst st1. destruct (client_rooms st !! s) as [old_rid|]; [|done].
    destruct (rooms st !! old_rid) as [old|] eqn:Hold; [|done].
    apply ids_match_insert; [done|]. simpl. by apply Hids. }
  destruct (rooms st1 !! _) as [r1|] eqn:Hr1; [|done]. simpl.
  intros k r. simpl.
  destruct (decide (strip (default [] (req_room_id req)) = k)) as [<-|Hk].
  - rewrite lookup_insert_eq. intros [= <-]. simpl. by apply Hids1.
  - rewrite lookup_insert_ne by done. apply Hids1.
Qed.

Lemma ids_match_leave_room st s req :
  ids_match st → ids_match (handle_leave_room st s req).1.
Proof.
  intros Hids. unfold handle_leave_room.
  destruct (clients st !! s); [|done].
  destruct (client_rooms st !! s) as [rid|]; [|done]. simpl.
  destruct (rooms st !! rid) as [r|] eqn:Hr; [|done].
  intros k r'. simpl. destruct (decide (rid = k)) as [<-|Hk].
  - rewrite lookup_insert_eq. intros [= <-]. simpl. by apply Hids.
  - rewrite lookup_insert_ne by done. apply Hids.
Qed.

Lemma ids_match_delete_room st s req env :
  ids_match st → ids_match (handle_delete_room st s req env).1.
Proof.
  intros Hids. unfold handle_delete_room.
  destruct (clients st !! s); [|done].
  destruct (if bool_decide _ then _ else _) as [room|]; [|done].
  destruct (bool_decide _); [done|]. simpl.
  intros k r. simpl.
  destruct (cleanup_frame room env
    (set_client_rooms
       (filter (λ kv, kv.2 ≠ strip (default [] (req_room_id req)))) st))
    as (_ & -> & _). simpl.
  intros Hk. apply lookup_delete_Some in Hk as [_ Hk]. by apply Hids.
Qed.

Lemma ids_match_upload st s req env ch :
  ids_match st → ids_match (handle_upload st s req env ch).1.1.
Proof.
  intros Hids. unfold handle_upload.
  destruct (client_rooms st !! s) as [rid|]; [|done].
  destruct (rooms st !! rid) as [room|] eqn:Hroom; [|done].
  destruct (bool_decide _); [done|]. destruct (_ >? _)%Z; [done|].
  destruct (env_open_raises env); [done|].
  set (file_path := path_join _ _).
  set (rc := receive_file _ _ _ _ _ _).
  assert (rooms (rc_state rc) = rooms st) as Hrooms.
  { subst rc.
    by destruct (receive_file_frame
                   (Z.to_nat (default 0%Z (req_file_size req)))
                   (default 0%Z (req_file_size req)) 0 file_path
                   (set_fs_files (<[file_path := []]>) st) ch)
      as (_ & -> & _). }
  destruct (rc_raised rc || rc_out_of_fuel rc); simpl.
  { by apply (ids_match_same_rooms st). }
  destruct (bool_decide _); simpl.
  { destruct (env_remove_raises env); by apply (ids_match_same_rooms st). }
  intros k r. simpl. rewrite Hrooms. destruct (decide (rid = k)) as [<-|Hk].
  - rewrite lookup_insert_eq. intros [= <-]. simpl. by apply Hids.
  - rewrite lookup_insert_ne by done. apply Hids.
Qed.

Lemma ids_match_delete_file st s req env :
  ids_match st → ids_match (handle_delete_file st s req env).1.
Proof.
  intros Hids. unfold handle_delete_file.
  destruct (client_rooms st !! s) as [rid|]; [|done].
  destruct (rooms st !! rid) as [room|] eqn:Hroom; [|done].
  destruct (room_files room !! _) eqn:Hf; [|done].
  unfold remove_file. rewrite Hroom, Hf.
  destruct (_ && _); simpl; [done|].
  intros k r. simpl. destruct (decide (rid = k)) as [<-|Hk].
  - rewrite lookup_insert_eq. intros [= <-]. simpl. by apply Hids.
  - rewrite lookup_insert_ne by done. apply Hids.
Qed.

Lemma ids_match_run_command c st s req env ch :
  ids_match st → ids_match (run_command c st s req env ch).1.1.
Proof.
  intros Hids. destruct c; simpl;
    eauto using ids_match_create_room, ids_match_join_room,
      ids_match_leave_room, ids_match_delete_room, ids_match_delete_file,
      ids_match_upload.
  - unfold handle_download. repeat (case_match; simpl; try done).
  - unfold handle_list_files. repeat (case_match; simpl; try done).
Qed.

(** The invariant holds initially and is kept by every request. *)
Lemma ids_match_serve_request st s req env ch st' out ch' :
  ids_match st →
  serve_request st s req env ch = Some (st', out, ch') →
  ids_match st'.
Proof.
  intros Hids Hs.
  apply serve_request_inv in Hs as (ci & _ & [[c Hc]|[r Hr]]).
  - pose proof (ids_match_run_command c (update_username st s ci req)
                  s req env ch) as H.
    rewrite <- Hc in H. apply H.
    apply (ids_match_same_rooms st); [apply update_username_rooms|done].
  - injection Hr as -> _ _.
    apply (ids_match_same_rooms st); [apply update_username_rooms|done].
Qed.

Lemma ids_match_accept s address now st :
  ids_match st → ids_match (accept_client s address now st).
Proof. by apply ids_match_same_rooms. Qed.

(** ** The file system *)

Lemma path_exists_rmtree p st : path_exists p (rmtree p st) = false.
Proof.
  unfold path_exists, rmtree. simpl. apply orb_false_iff. split.
  - apply bool_decide_eq_false. rewrite elem_of_filter.
    intros [Hn _]. by apply Hn.
  - apply bool_decide_eq_false. intros [x Hx].
    apply map_lookup_filter_Some in Hx as [_ Hn]. by apply Hn.
Qed.

Lemma path_exists_cleanup r env st :
  env_rmtree_raises env = false →
  path_exists (room_dir r) (cleanup r env st) = false.
Proof.
  intros Hok. unfold cleanup.
  destruct (path_exists (room_dir r) st) eqn:He; [|done].
  rewrite Hok. apply path_exists_rmtree.
Qed.

Lemma path_exists_storage p st st' :
  storage st' = storage st → path_exists p st' = path_exists p st.
Proof. unfold storage, path_exists. by intros [= -> ->]. Qed.

(** ** What [recv] takes from the arrivals *)

Lemma recv_available k ch :
  0 < k →
  match (recv k ch).1 with
  | Data (b :: chunk) =>
      available ch = (b :: chunk) ++ available (recv k ch).2
      ∧ length (b :: chunk) ≤ k
  | _ => available ch = []
  end.
Proof.
  intros Hk. induction ch as [|[[|b bs]|] ch IH]; simpl; try done.
  destruct k as [|k]; [lia|]. simpl. split.
  - f_equal. rewrite <- (take_drop k bs) at 1.
    destruct (drop k bs) as [|c rest]; simpl; by rewrite <- app_assoc.
  - rewrite length_take. lia.
Qed.

Lemma recv_faulty k ch :
  0 < k →
  match (recv k ch).1 with
  | Data (_ :: _) => faulty ch = faulty (recv k ch).2
  | Data [] => faulty ch = false
  | Raised => faulty ch = true
  end.
Proof.
  intros Hk. induction ch as [|[[|b bs]|] ch IH]; simpl; try done.
  destruct k as [|k]; [lia|]. simpl. by destruct (drop k bs).
Qed.

(** ** The loop that reads the payload of a request *)

Lemma receive_data_unfold fuel len data ch :
  receive_data fuel len data ch =
    if (Z.of_nat (length data) <? len)%Z then
      match fuel with
      | O => (OutOfFuel, ch)
      | S fuel' =>
          match recv (Z.to_nat (Z.min 8192 (len - Z.of_nat (length data)))) ch with
          | (Raised, ch') => (Interrupted, ch')
          | (Data [], ch') => (Interrupted, ch')
          | (Data chunk, ch') => receive_data fuel' len (data ++ chunk) ch'
          end
      end
    else (Complete data, ch).
Proof. by destruct fuel. Qed.

(** With [need] bytes still to read and at least that much fuel, the loop
    completes with the next [need] bytes when they arrive, and is
    interrupted when the peer closes or a fault occurs before. *)
Lemma receive_data_spec fuel : ∀ len data ch need,
  (Z.of_nat (length data) + Z.of_nat need = len)%Z →
  need ≤ fuel →
  (need ≤ length (available ch) →
     ∃ ch', receive_data fuel len data ch
              = (Complete (data ++ take need (available ch)), ch')
            ∧ available ch' = drop need (available ch))
  ∧ (length (available ch) < need →
     ∃ ch', receive_data fuel len data ch = (Interrupted, ch')).
Proof.
  induction fuel as [|fuel IH]; intros len data ch need Hlen Hfuel.
  - assert (need = 0) as -> by lia. rewrite receive_data_unfold.
    rewrite (proj2 (Z.ltb_ge _ _)) by lia. split; [|lia].
    intros _. exists ch. by rewrite take_0, app_nil_r, drop_0.
  - rewrite receive_data_unfold.
    destruct (Z.ltb_spec (Z.of_nat (length data)) len) as [Hlt|Hge].
    2:{ assert (need = 0) as -> by lia. split; [|lia].
        intros _. exists ch. by rewrite take_0, app_nil_r, drop_0. }
    set (k := Z.to_nat (Z.min 8192 (len - Z.of_nat (length data)))).
    assert (0 < k ∧ k ≤ need) as [Hk Hkn].
    { subst k.
      destruct (Z.min_spec 8192 (len - Z.of_nat (length data)))
        as [[? ->]|[? ->]]; lia. }
    pose proof (recv_available k ch Hk) as Hrecv.
    destruct (recv k ch) as [[[|b chunk]|] ch1]; cbn [fst snd] in Hrecv.
    + rewrite Hrecv. simpl. split; [lia|]. intros _. by exists ch1.
    + destruct Hrecv as [Hav Hlen1].
      remember (b :: chunk) as piece eqn:Hpiece.
      assert (0 < length piece) as Hpos by (subst piece; simpl; lia).
      clear Hpiece.
      destruct (IH len (data ++ piece) ch1 (need - length piece))
        as [IH1 IH2].
      { rewrite length_app. lia. }
      { lia. }
      rewrite Hav, length_app. split.
      * intros Hn. destruct IH1 as (ch' & -> & Hav'); [lia|].
        exists ch'. split.
        -- f_equal. rewrite <- app_assoc. f_equal.
           rewrite take_app, (take_ge piece need) by lia. done.
        -- rewrite Hav', drop_app, (drop_ge piece need) by lia. done.
      * intros Hn. destruct IH2 as (ch' & ->); [lia|]. by exists ch'.
    + rewrite Hrecv. simpl. split; [lia|]. intros _. by exists ch1.
Qed.

(** The fuel that [receive_request] gives the loop is never used up. *)
Lemma receive_data_fuel fuel len data ch need :
  (Z.of_nat (length data) + Z.of_nat need = len)%Z →
  need ≤ fuel →
  (receive_data fuel len data ch).1 ≠ OutOfFuel.
Proof.
  intros Hlen Hfuel.
  destruct (receive_data_spec fuel len data ch need Hlen Hfuel) as [H1 H2].
  destruct (decide (need ≤ length (available ch))) as [Hn|Hn].
  - destruct (H1 Hn) as (ch' & -> & _). done.
  - destruct H2 as (ch' & ->); [lia|]. done.
Qed.

Lemma unpack_be32_length bs : is_Some (unpack_be32 bs) ↔ length bs = 4.
Proof.
  split.
  - intros [len H]. by destruct bs as [|? [|? [|? [|? [|? ?]]]]].
  - intros H. by destruct bs as [|? [|? [|? [|? [|? ?]]]]].
Qed.

Lemma byte_range b : (0 ≤ Z.of_N (Byte.to_N b) < 256)%Z.
Proof. destruct b; vm_compute; split; congruence. Qed.

Lemma unpack_be32_range bs len :
  unpack_be32 bs = Some len → (0 ≤ len < 4294967296)%Z.
Proof.
  destruct bs as [|b0 [|b1 [|b2 [|b3 [|? ?]]]]]; try done.
  intros [= <-].
  pose proof (byte_range b0). pose proof (byte_range b1).
  pose proof (byte_range b2). pose proof (byte_range b3). lia.
Qed.

Example unpack_be32_examples :
  unpack_be32 [x00; x00; x01; x02] = Some 258%Z
  ∧ unpack_be32 [x00; xa0; x00; x00] = Some max_frame
  ∧ unpack_be32 [xff; xff; xff; xff] = Some 4294967295%Z
  ∧ unpack_be32 [x00; x00; x01] = None.
Proof. repeat split; reflexivity. Qed.

(** ** The loop that receives an uploaded file *)

Lemma receive_file_unfold fuel file_size received file_path st ch :
  receive_file fuel file_size received file_path st ch =
    if (received <? file_size)%Z then
      match fuel with
      | O => mkReceived false true received st ch
      | S fuel' =>
          match recv (Z.to_nat (Z.min 8192 (file_size - received))) ch with
          | (Raised, ch') => mkReceived true false received st ch'
          | (Data [], ch') => mkReceived false false received st ch'
          | (Data chunk, ch') =>
              receive_file fuel' file_size
                (received + Z.of_nat (length chunk))%Z file_path
                (write_chunk file_path chunk st) ch'
          end
      end
    else mkReceived false false received st ch.
Proof. by destruct fuel. Qed.

(** With [need] bytes still to receive and at least that much fuel, the
    loop never runs out of fuel; the file holds what was written before
    followed by the bytes that arrived, at most [need] of them; the loop
    ends with the declared size when they all arrive, and short of it
    otherwise, by an exception exactly when a fault ended the arrivals. *)
Lemma receive_file_spec file_path fuel :
  ∀ file_size received st ch need content,
  (received + Z.of_nat need = file_size)%Z →
  need ≤ fuel →
  fs_files st !! file_path = Some content →
  rc_out_of_fuel (receive_file fuel file_size received file_path st ch) = false
  ∧ fs_files (rc_state (receive_file fuel file_size received file_path st ch))
      = <[file_path := content ++ take need (available ch)]> (fs_files st)
  ∧ (need ≤ length (available ch) →
       rc_raised (receive_file fuel file_size received file_path st ch) = false
       ∧ rc_received (receive_file fuel file_size received file_path st ch)
           = file_size
       ∧ available (rc_channel
                      (receive_file fuel file_size received file_path st ch))
           = drop need (available ch))
  ∧ (length (available ch) < need →
       rc_raised (receive_file fuel file_size received file_path st ch)
         = faulty ch
       ∧ (rc_received (receive_file fuel file_size received file_path st ch)
            < file_size)%Z).
Proof.
  induction fuel as [|fuel IH];
    intros file_size received st ch need content Hsize Hfuel Hfile;
    rewrite receive_file_unfold.
  - assert (need = 0) as -> by lia.
    rewrite (proj2 (Z.ltb_ge _ _)) by lia. simpl.
    rewrite take_0, app_nil_r, insert_id by done.
    repeat split; try done; lia.
  - destruct (Z.ltb_spec received file_size) as [Hlt|Hge].
    2:{ assert (need = 0) as -> by lia. simpl.
        rewrite take_0, app_nil_r, insert_id by done.
        repeat split; try done; lia. }
    set (k := Z.to_nat (Z.min 8192 (file_size - received))).
    assert (0 < k ∧ k ≤ need) as [Hk Hkn].
    { subst k.
      destruct (Z.min_spec 8192 (file_size - received)) as [[? ->]|[? ->]]; lia. }
    pose proof (recv_available k ch Hk) as Hav.
    pose proof (recv_faulty k ch Hk) as Hfa.
    destruct (recv k ch) as [[[|b chunk]|] ch1]; cbn [fst snd] in Hav, Hfa.
    + rewrite Hav, Hfa. simpl. rewrite take_nil, app_nil_r, insert_id by done.
      repeat split; try done; lia.
    + destruct Hav as [Hav Hlen1]. cbn beta iota.
      assert (0 < length (b :: chunk)) as Hpos by (simpl; lia).
      remember (b :: chunk) as piece eqn:Hpiece. clear Hpiece.
      destruct (IH file_size (received + Z.of_nat (length piece))%Z
                  (write_chunk file_path piece st) ch1
                  (need - length piece) (content ++ piece))
        as (Hoof & Hfs & Hfull & Hpart).
      { lia. }
      { lia. }
      { unfold write_chunk. simpl. by rewrite Hfile, lookup_insert_eq. }
      rewrite Hav, length_app.
      split; [done|]. split.
      { rewrite Hfs. unfold write_chunk. simpl. rewrite Hfile.
        rewrite insert_insert_eq. f_equal. rewrite <- app_assoc. f_equal.
        by rewrite take_app, (take_ge piece need) by lia. }
      split.
      * intros Hn. destruct Hfull as (? & ? & Hrest); [lia|].
        split; [done|]. split; [done|].
        by rewrite Hrest, drop_app, (drop_ge piece need) by lia.
      * intros Hn. destruct Hpart as [Hr Hrec]; [lia|].
        by rewrite Hfa.
    + rewrite Hav, Hfa. simpl. rewrite take_nil, app_nil_r, insert_id by done.
      repeat split; try done; lia.
Qed.


(** ** Membership when a session moves to another room *)

Lemma ids_match_alice_in_alpha : ids_match alice_in_alpha.
Proof.
  intros k r H. unfold alice_in_alpha, rooms in H.
  apply lookup_singleton_Some in H as [<- <-]. reflexivity.
Qed.

Lemma alice_member_of_alpha : py "alice" ∈ room_members alpha_room.
Proof. unfold alpha_room. cbn [room_members]. by apply elem_of_singleton_2. Qed.

(** The state of the examples is the one the server is in after alice
    has created her first room. *)
Example alice_in_alpha_reached :
  serve_requests one_client 1
    [(create_request (py "Alpha") (py "alice"), default_env)]
  = Some alice_in_alpha.
Proof. vm_compute. reflexivity. Qed.

(** [handle_join_room] takes the user name of the request out of the
    room the session was bound to. *)
Lemma join_room_leaves_prior_room st s req old_rid old rid r :
  client_rooms st !! s = Some old_rid →
  rooms st !! old_rid = Some old →
  strip (default [] (req_room_id req)) = rid →
  rid ≠ [] →
  rid ≠ old_rid →
  rooms st !! rid = Some r →
  client_rooms (handle_join_room st s req).1 !! s = Some rid
  ∧ rooms (handle_join_room st s req).1 !! old_rid
      = Some (remove_member (default Anonymous (req_username req)) old)
  ∧ rooms (handle_join_room st s req).1 !! rid
      = Some (add_member (default Anonymous (req_username req)) r).
Proof.
  intros Hbound Hold Hrid Hne Hdiff Hroom. unfold handle_join_room.
  rewrite Hrid, bool_decide_eq_false_2, Hroom, Hbound, Hold by done.
  simpl. rewrite lookup_insert_ne, Hroom by done. simpl.
  rewrite !lookup_insert_eq, lookup_insert_ne, lookup_insert_eq by done.
  done.
Qed.

(** C1: the session is not kept in at most one room.  A valid
    [create_room] sent by a session that is bound to a room binds the
    session to the new room and leaves the prior room as it was: the user
    name of the request, a member of the prior room, is afterwards a
    member of both rooms.  ([handle_join_room] removes it from the prior
    room, [handle_create_room] does not.) *)
Theorem create_room_keeps_prior_membership st s ci req env ch old_rid old :
  clients st !! s = Some ci →
  req_command req = Some (command_name create_room) →
  client_rooms st !! s = Some old_rid →
  rooms st !! old_rid = Some old →
  default Anonymous (req_username req) ∈ room_members old →
  strip (default [] (req_room_name req)) ≠ [] →
  length (strip (default [] (req_room_name req))) ≤ 50 →
  take 8 (env_uuid4 env) ≠ old_rid →
  ∃ st' out new,
    serve_request st s req env ch = Some (st', out, ch)
    ∧ client_rooms st' !! s = Some (take 8 (env_uuid4 env))
    ∧ rooms st' !! old_rid = Some old
    ∧ rooms st' !! take 8 (env_uuid4 env) = Some new
    ∧ default Anonymous (req_username req) ∈ room_members old
    ∧ default Anonymous (req_username req) ∈ room_members new.
Proof.
  intros Hc Hcmd Hbound Hold Hmem Hname Hlen Hdiff.
  rewrite (serve_request_dispatch create_room _ _ ci) by done.
  simpl. unfold handle_create_room.
  rewrite bool_decide_eq_false_2 by done.
  destruct (50 <? _) eqn:Hlt; [apply Nat.ltb_lt in Hlt; lia|].
  simpl. eexists _, _, _. split; [reflexivity|]. simpl.
  rewrite !lookup_insert_eq, lookup_insert_ne by done.
  rewrite update_username_rooms.
  split; [done|]. split; [done|]. split; [reflexivity|]. split; [done|].
  simpl. apply elem_of_union. right. by apply elem_of_singleton.
Qed.

Lemma create_room_keeps_prior_membership_witness :
  clients alice_in_alpha !! 1 = Some alice_info
  ∧ client_rooms alice_in_alpha !! 1 = Some (py "0f8fad5b")
  ∧ rooms alice_in_alpha !! py "0f8fad5b" = Some alpha_room
  ∧ ∃ st' out new,
      serve_request alice_in_alpha 1 (create_request (py "Beta") (py "alice"))
                    other_env [] = Some (st', out, [])
      ∧ client_rooms st' !! 1 = Some (py "7c9e6679")
      ∧ rooms st' !! py "0f8fad5b" = Some alpha_room
      ∧ rooms st' !! py "7c9e6679" = Some new
      ∧ py "alice" ∈ room_members alpha_room
      ∧ py "alice" ∈ room_members new.
Proof.
  split; [reflexivity|]. split; [reflexivity|]. split; [reflexivity|].
  apply (create_room_keeps_prior_membership alice_in_alpha 1 alice_info
           (create_request (py "Beta") (py "alice")) other_env []
           (py "0f8fad5b") alpha_room).
  - reflexivity.
  - reflexivity.
  - reflexivity.
  - reflexivity.
  - apply alice_member_of_alpha.
  - vm_compute. discriminate.
  - vm_compute. lia.
  - vm_compute. discriminate.
Defined.

(** Two rooms created in turn by one session: the session is bound to
    the second and alice is a member of both. *)
Example double_create_two_rooms :
  ∃ st,
    serve_requests one_client 1
      [(create_request (py "Alpha") (py "alice"), default_env);
       (create_request (py "Beta") (py "alice"), other_env)] = Some st
    ∧ client_rooms st !! 1 = Some (py "7c9e6679")
    ∧ room_members <$> rooms st !! py "0f8fad5b" = Some {[py "alice"]}
    ∧ room_members <$> rooms st !! py "7c9e6679" = Some {[py "alice"]}.
Proof. eexists. split; [vm_compute; reflexivity|]. vm_compute. repeat split. Qed.

(** The same session joining the second room instead is taken out of the
    first. *)
Example create_then_join_one_room :
  ∃ st,
    serve_requests
        (accept_client 2 (py "10.0.0.2") (py "2025-01-01 00:01:00")
                       alice_in_alpha) 2
        [(create_request (py "Beta") (py "bob"), other_env)] = Some st
    ∧ room_members <$>
        rooms (handle_join_room st 1
                 (room_request (py "join_room") (py "7c9e6679") (py "alice"))).1
          !! py "0f8fad5b" = Some ∅
    ∧ room_members <$>
        rooms (handle_join_room st 1
                 (room_request (py "join_room") (py "7c9e6679") (py "alice"))).1
          !! py "7c9e6679" = Some {[py "alice"; py "bob"]}.
Proof.
  eexists. split; [vm_compute; reflexivity|].
  split; vm_compute; reflexivity.
Qed.

(** ** Deleting a room *)

Lemma update_username_client st s ci req :
  clients st !! s = Some ci →
  ∃ ci', clients (update_username st s ci req) !! s = Some ci'
    ∧ ci_username ci' = default (ci_username ci) (req_username req).
Proof.
  intros Hc. unfold update_username. destruct (req_username req) as [u|].
  - eexists. simpl. by rewrite lookup_insert_eq.
  - by exists ci.
Qed.

(** [handle_delete_room] for a session that the server knows. *)
Lemma handle_delete_room_spec st s ci req env :
  clients st !! s = Some ci →
  ∃ r,
    (handle_delete_room st s req env).2 = [Frame r]
    ∧ (status r = success ↔
         strip (default [] (req_room_id req)) ≠ []
         ∧ ∃ room,
             rooms st !! strip (default [] (req_room_id req)) = Some room
             ∧ room_owner room = ci_username ci)
    ∧ (status r ≠ success → (handle_delete_room st s req env).1 = st)
    ∧ (status r = success →
         rooms (handle_delete_room st s req env).1
           !! strip (default [] (req_room_id req)) = None
         ∧ (∀ x, x ∈ rooms_list (handle_delete_room st s req env).1 →
                 rs_id x ≠ strip (default [] (req_room_id req)))
         ∧ ∀ room,
             rooms st !! strip (default [] (req_room_id req)) = Some room →
             env_rmtree_raises env = false →
             path_exists (room_dir room) (handle_delete_room st s req env).1
               = false).
Proof.
  intros Hc. unfold handle_delete_room. rewrite Hc.
  set (rid := strip (default [] (req_room_id req))).
  destruct (decide (rid = [])) as [Hrid|Hrid].
  { rewrite bool_decide_eq_true_2 by done.
    eexists. split; [reflexivity|]. simpl.
    split; [split; [done|by intros [? _]]|]. split; done. }
  rewrite bool_decide_eq_false_2 by done.
  destruct (rooms st !! rid) as [room|] eqn:Hroom.
  2:{ eexists. split; [reflexivity|]. simpl.
      split; [split; [done|by intros [_ (? & ? & _)]]|]. split; done. }
  destruct (decide (room_owner room = ci_username ci)) as [Hown|Hown].
  2:{ rewrite bool_decide_eq_true_2 by done.
      eexists. split; [reflexivity|]. simpl.
      split; [split; [done|]|split; done].
      intros [_ (room' & [= <-] & ?)]. done. }
  rewrite bool_decide_eq_false_2 by (intros ?; done).
  eexists. split; [reflexivity|]. simpl.
  split; [split; [eauto|done]|]. split; [done|]. intros _.
  split; [apply lookup_delete_eq|]. split.
  - intros x Hx Hid. apply elem_of_rooms_list in Hx as (k & r' & Hk & ->).
    simpl in *. subst k. by rewrite lookup_delete_eq in Hk.
  - intros room' [= <-] Hok.
    rewrite (path_exists_storage _ (cleanup room env
      (set_client_rooms (filter (λ kv, kv.2 ≠ rid)) st))) by done.
    by apply path_exists_cleanup.
Qed.

(** C2: a [delete_room] request succeeds exactly when the stripped room
    identifier is not empty, names a room of the registry, and the owner
    of that room is the user name of the session (the one of the request
    when it carries one).  A request that does not succeed changes
    neither the registry nor the storage.  After a success the room is
    not in the registry, no entry of the list that [list_rooms] sends has
    its identifier, and the directory of the room does not exist provided
    [shutil.rmtree] did not raise. *)
Theorem delete_room_owner_only st s ci req env ch :
  clients st !! s = Some ci →
  req_command req = Some (command_name delete_room) →
  ∃ st' r,
    serve_request st s req env ch = Some (st', [Frame r], ch)
    ∧ (status r = success ↔
         strip (default [] (req_room_id req)) ≠ []
         ∧ ∃ room,
             rooms st !! strip (default [] (req_room_id req)) = Some room
             ∧ room_owner room = default (ci_username ci) (req_username req))
    ∧ (status r ≠ success →
         registry st' = registry st ∧ storage st' = storage st)
    ∧ (status r = success →
         rooms st' !! strip (default [] (req_room_id req)) = None
         ∧ (∀ x, x ∈ rooms_list st' →
                 rs_id x ≠ strip (default [] (req_room_id req)))
         ∧ ∀ room,
             rooms st !! strip (default [] (req_room_id req)) = Some room →
             env_rmtree_raises env = false →
             path_exists (room_dir room) st' = false).
Proof.
  intros Hc Hcmd.
  rewrite (serve_request_dispatch delete_room _ _ ci) by done. simpl.
  destruct (update_username_client st s ci req Hc) as (ci' & Hc' & Hu).
  destruct (handle_delete_room_spec (update_username st s ci req) s ci' req
              env Hc') as (r & Hout & Hiff & Hfail & Hok).
  rewrite update_username_rooms, Hu in Hiff.
  rewrite update_username_rooms in Hok.
  destruct (handle_delete_room _ s req env) as [st' out]. simpl in *.
  subst out. exists st', r. split; [done|]. split; [done|].
  split; [|done].
  intros Hr. rewrite (Hfail Hr).
  split; [apply update_username_registry|apply update_username_storage].
Qed.

Lemma delete_room_owner_only_witness :
  clients alice_in_alpha !! 1 = Some alice_info
  ∧ ∃ st' r,
      serve_request alice_in_alpha 1
        (room_request (py "delete_room") (py "0f8fad5b") (py "alice"))
        default_env [] = Some (st', [Frame r], [])
      ∧ status r = success
      ∧ rooms st' !! py "0f8fad5b" = None
      ∧ path_exists (room_dir alpha_room) st' = false.
Proof.
  split; [reflexivity|].
  destruct (delete_room_owner_only alice_in_alpha 1 alice_info
              (room_request (py "delete_room") (py "0f8fad5b") (py "alice"))
              default_env [] eq_refl eq_refl)
    as (st' & r & Hserve & Hiff & _ & Hok).
  exists st', r. split; [exact Hserve|].
  assert (status r = success) as Hr.
  { apply Hiff. split; [vm_compute; discriminate|].
    exists alpha_room. split; reflexivity. }
  split; [exact Hr|].
  destruct (Hok Hr) as (Hgone & _ & Hdir).
  split; [exact Hgone|]. apply Hdir; reflexivity.
Defined.

(** When [shutil.rmtree] raises, [Room.cleanup] logs the failure and the
    deletion goes on: the owner is answered with a success and the room
    is out of the registry, while its directory is still on disk. *)
Lemma delete_room_rmtree_failure :
  ∃ st' message,
    serve_request alice_in_alpha 1
      (room_request (py "delete_room") (py "0f8fad5b") (py "alice"))
      failing_rmtree [] = Some (st', [Frame (RespMessage success message)], [])
    ∧ rooms st' !! py "0f8fad5b" = None
    ∧ rooms_list st' = []
    ∧ room_dir alpha_room = [py "rooms"; py "0f8fad5b"]
    ∧ path_exists [py "rooms"; py "0f8fad5b"] st' = true.
Proof.
  eexists _, _. split; [vm_compute; reflexivity|].
  repeat split; vm_compute; reflexivity.
Qed.

(** ** Uploading a file *)

(** C3: an upload that passed the checks of [handle_upload] in a room of
    the registry.  When opening the destination file raises, the answer
    after the ready response is [Upload failed]: nothing is read, written
    or registered.  When the file is opened: if fewer bytes arrive than
    the declared size, or the declared size is negative, the catalogues
    of the rooms are unchanged and an error is sent after the ready
    response; when moreover the receiving ended because the peer closed,
    the error is [Incomplete file transfer] and the file at the upload
    path is gone provided [os.remove] did not raise.  If the declared
    number of bytes arrives, and only then, the file is registered in the
    room, under the first twelve characters of the fresh identifier, with
    the declared name and size, and the stored file holds exactly the
    declared number of bytes. *)
Theorem upload_registers_complete_only st s req env ch rid room :
  client_rooms st !! s = Some rid →
  rooms st !! rid = Some room →
  default [] (req_filename req) ≠ [] →
  (default 0 (req_file_size req) ≤ max_upload)%Z →
  (env_open_raises env = true →
     handle_upload st s req env ch
     = (st, [ready_frame; Frame (RespMessage error (py "Upload failed"))], ch))
  ∧ (env_open_raises env = false →
    ((default 0 (req_file_size req) < 0
      ∨ Z.of_nat (length (available ch)) < default 0 (req_file_size req))%Z →
       rooms (handle_upload st s req env ch).1.1 = rooms st
       ∧ (∃ message,
            (handle_upload st s req env ch).1.2
              = [ready_frame; Frame (RespMessage error message)])
       ∧ ((default 0 (req_file_size req) < 0)%Z ∨ faulty ch = false →
            (handle_upload st s req env ch).1.2
              = [ready_frame;
                 Frame (RespMessage error (py "Incomplete file transfer"))]
            ∧ (env_remove_raises env = false →
                 fs_files (handle_upload st s req env ch).1.1
                   !! upload_path room env (default [] (req_filename req))
                 = None)))
    ∧ ((0 ≤ default 0 (req_file_size req) ≤ Z.of_nat (length (available ch)))%Z →
       ∃ fi,
         (handle_upload st s req env ch).1.2
           = [ready_frame;
              Frame (RespUploaded success (py "File uploaded successfully")
                                  (fi_id fi))]
         ∧ rooms (handle_upload st s req env ch).1.1
             = <[rid := add_file fi room]> (rooms st)
         ∧ fi_id fi = take 12 (env_uuid4 env)
         ∧ fi_name fi = default [] (req_filename req)
         ∧ fi_size fi = default 0%Z (req_file_size req)
         ∧ fs_files (handle_upload st s req env ch).1.1
             !! path_join (room_dir room) (fi_filename fi)
           = Some (take (Z.to_nat (default 0%Z (req_file_size req)))
                        (available ch)))).
Proof.
  intros Hbound Hroom Hname Hmax. unfold handle_upload, upload_path.
  rewrite Hbound, Hroom. rewrite bool_decide_eq_false_2 by done.
  set (filename := default [] (req_filename req)) in *.
  set (file_size := default 0%Z (req_file_size req)) in *.
  destruct (file_size >? max_upload)%Z eqn:Hgt; [apply Z.gtb_gt in Hgt; lia|].
  split; intros Hopen; rewrite Hopen; [reflexivity|].
  set (file_path := path_join (room_dir room)
                      (take 12 (env_uuid4 env) ++ splitext_ext filename)).
  set (opened := set_fs_files (<[file_path := []]>) st).
  set (rc := receive_file (Z.to_nat file_size) file_size 0 file_path opened ch).
  assert (rooms (rc_state rc) = rooms st) as Hrooms.
  { subst rc. by destruct (receive_file_frame (Z.to_nat file_size) file_size 0
                             file_path opened ch) as (_ & -> & _). }
  destruct (Z.lt_ge_cases file_size 0) as [Hneg|Hpos].
  - (* a negative declared size: the loop is not entered *)
    assert (rc = mkReceived false false 0 opened ch) as Hrc.
    { subst rc. rewrite receive_file_unfold.
      by rewrite (proj2 (Z.ltb_ge _ _)) by lia. }
    rewrite Hrc in *. simpl.
    rewrite bool_decide_eq_true_2 by lia.
    split; [|lia]. intros _. split; [by destruct (env_remove_raises env)|].
    split; [by eexists|]. intros _. split; [done|].
    intros ->. simpl. apply lookup_delete_eq.
  - destruct (receive_file_spec file_path (Z.to_nat file_size) file_size 0
                opened ch (Z.to_nat file_size) [])
      as (Hoof & Hfs & Hfull & Hpart).
    { lia. } { lia. } { subst opened. simpl. apply lookup_insert_eq. }
    fold rc in Hoof, Hfs, Hfull, Hpart. rewrite Hoof, orb_false_r.
    split.
    + intros [Hn|Hshort]; [lia|].
      destruct Hpart as [Hraised Hrec]; [lia|]. rewrite Hraised.
      destruct (faulty ch) eqn:Hfaulty; simpl.
      * split; [done|]. split; [by eexists|]. intros [?|?]; [lia|done].
      * rewrite bool_decide_eq_true_2 by lia.
        split; [by destruct (env_remove_raises env)|].
        split; [by eexists|]. intros _. split; [done|].
        intros ->. simpl. apply lookup_delete_eq.
    + intros [_ Hall].
      destruct Hfull as (Hraised & Hrec & _); [lia|]. rewrite Hraised. simpl.
      rewrite bool_decide_eq_false_2 by (intros ?; done).
      exists (mkFileInfo (take 12 (env_uuid4 env)) filename
                (take 12 (env_uuid4 env) ++ splitext_ext filename) file_size
                match env_guess_type env with
                | Some t => if bool_decide (t = []) then
                              py "application/octet-stream" else t
                | None => py "application/octet-stream"
                end
                (default Anonymous (req_uploader req))
                (default [] (req_description req)) (env_now env)).
      simpl. split; [reflexivity|].
      split; [by rewrite Hrooms|]. repeat split.
      rewrite Hfs. by rewrite lookup_insert_eq.
Qed.

Lemma upload_registers_complete_only_witness :
  client_rooms alice_in_alpha !! 1 = Some (py "0f8fad5b")
  ∧ rooms alice_in_alpha !! py "0f8fad5b" = Some alpha_room
  ∧ (handle_upload alice_in_alpha 1
       (upload_request (py "note.txt") 10 (py "alice")) other_env
       [Seg abc]).1.2
    = [ready_frame; Frame (RespMessage error (py "Incomplete file transfer"))]
  ∧ fs_files (handle_upload alice_in_alpha 1
                (upload_request (py "note.txt") 10 (py "alice")) other_env
                [Seg abc]).1.1
      !! upload_path alpha_room other_env (py "note.txt") = None
  ∧ ∃ fi,
      rooms (handle_upload alice_in_alpha 1
               (upload_request (py "note.txt") 3 (py "alice")) other_env
               [Seg [x61]; Seg [x62; x63; x64]]).1.1
        = <[py "0f8fad5b" := add_file fi alpha_room]> (rooms alice_in_alpha)
      ∧ fs_files (handle_upload alice_in_alpha 1
                    (upload_request (py "note.txt") 3 (py "alice")) other_env
                    [Seg [x61]; Seg [x62; x63; x64]]).1.1
          !! path_join (room_dir alpha_room) (fi_filename fi) = Some abc.
Proof.
  split; [reflexivity|]. split; [reflexivity|].
  destruct (upload_registers_complete_only alice_in_alpha 1
              (upload_request (py "note.txt") 10 (py "alice")) other_env
              [Seg abc] (py "0f8fad5b") alpha_room)
    as [_ Hopened].
  { reflexivity. } { reflexivity. } { vm_compute. discriminate. }
  { vm_compute. discriminate. }
  destruct (Hopened eq_refl) as [Hshort _].
  destruct Hshort as (_ & _ & Hclosed); [right; vm_compute; reflexivity|].
  destruct Hclosed as [Hout Hfile]; [right; reflexivity|].
  split; [exact Hout|]. split; [apply Hfile; reflexivity|].
  destruct (upload_registers_complete_only alice_in_alpha 1
              (upload_request (py "note.txt") 3 (py "alice")) other_env
              [Seg [x61]; Seg [x62; x63; x64]] (py "0f8fad5b") alpha_room)
    as [_ Hopened'].
  { reflexivity. } { reflexivity. } { vm_compute. discriminate. }
  { vm_compute. discriminate. }
  destruct (Hopened' eq_refl) as [_ Hfull].
  destruct Hfull as (fi & _ & Hrooms & _ & _ & _ & Hfile');
    [split; vm_compute; discriminate|].
  exists fi. split; [exact Hrooms|exact Hfile'].
Defined.

(** When [os.remove] raises after an incomplete transfer the exception is
    passed over: the peer that declared ten bytes and closed after three
    is answered [Incomplete file transfer], nothing is registered, and
    the file with the three bytes stays in the directory of the room. *)
Lemma upload_remove_failure :
  ∃ st',
    serve_request alice_in_alpha 1
      (upload_request (py "note.txt") 10 (py "alice")) failing_remove
      [Seg abc]
    = Some (st',
            [ready_frame;
             Frame (RespMessage error (py "Incomplete file transfer"))], [])
    ∧ rooms st' = rooms alice_in_alpha
    ∧ upload_path alpha_room failing_remove (py "note.txt")
        = [py "rooms"; py "0f8fad5b"; py "7c9e6679-742.txt"]
    ∧ fs_files st' !! [py "rooms"; py "0f8fad5b"; py "7c9e6679-742.txt"]
        = Some abc.
Proof.
  eexists. split; [vm_compute; reflexivity|].
  repeat split; vm_compute; reflexivity.
Qed.

(** A fault of [recv] during the transfer (a timeout, a reset) is caught
    by the handler of the whole command: the answer is [Upload failed]
    and the file with what was received stays in the directory of the
    room, whether or not [os.remove] would work. *)
Example upload_fault_leaves_partial_file :
  ∃ st',
    serve_request alice_in_alpha 1
      (upload_request (py "note.txt") 10 (py "alice")) other_env
      [Seg abc; Fault]
    = Some (st', [ready_frame; Frame (RespMessage error (py "Upload failed"))],
            [])
    ∧ rooms st' = rooms alice_in_alpha
    ∧ fs_files st' !! [py "rooms"; py "0f8fad5b"; py "7c9e6679-742.txt"]
        = Some abc.
Proof.
  eexists. split; [vm_compute; reflexivity|].
  repeat split; vm_compute; reflexivity.
Qed.

(** When the destination file cannot be opened, as for a stored name
    that the file system refuses, the answer after the ready response is
    [Upload failed]; nothing is read from the connection, and neither the
    catalogue nor the disk changes. *)
Example upload_open_failure :
  serve_request alice_in_alpha 1
    (upload_request (py "note." ++ [0%N]) 3 (py "alice")) failing_open
    [Seg abc]
  = Some (alice_in_alpha,
          [ready_frame; Frame (RespMessage error (py "Upload failed"))],
          [Seg abc]).
Proof. vm_compute. reflexivity. Qed.

(** ** Creating a room *)

(** C4: a [create_room] request whose stripped name is not empty and has
    at most 50 characters, served in a state where every room is stored
    under its identifier, is answered with the name and with the first
    eight characters of the fresh [uuid4] as identifier.  The new room is
    put in the registry under that identifier, whatever was there: when
    no room of the registry had the identifier, every room that was in
    the registry is still there, unchanged, under another key and with
    another identifier.  The user name of the request ([Anonymous] when
    it carries none) is the owner and the only member of the new room,
    and the session is bound to the room; a user name that the request
    carries is the one of the session afterwards, and a request that
    carries none leaves the session as it was. *)
Theorem create_room_unique_owner st s ci req env ch name :
  clients st !! s = Some ci →
  req_command req = Some (command_name create_room) →
  strip (default [] (req_room_name req)) = name →
  name ≠ [] →
  length name ≤ 50 →
  ids_match st →
  ∃ st' message room,
    serve_request st s req env ch =
      Some (st',
            [Frame (RespRoom success message (take 8 (env_uuid4 env)) name)],
            ch)
    ∧ rooms st' = <[take 8 (env_uuid4 env) := room]> (rooms st)
    ∧ (rooms st !! take 8 (env_uuid4 env) = None →
       ∀ k r, rooms st !! k = Some r →
              k ≠ take 8 (env_uuid4 env)
              ∧ room_id r ≠ take 8 (env_uuid4 env)
              ∧ rooms st' !! k = Some r)
    ∧ room_id room = take 8 (env_uuid4 env)
    ∧ room_name room = name
    ∧ room_owner room = default Anonymous (req_username req)
    ∧ room_members room = {[default Anonymous (req_username req)]}
    ∧ default Anonymous (req_username req) ∈ room_members room
    ∧ client_rooms st' !! s = Some (take 8 (env_uuid4 env))
    ∧ (∀ u, req_username req = Some u →
            ci_username <$> clients st' !! s = Some u)
    ∧ (req_username req = None → clients st' !! s = Some ci)
    ∧ ids_match st'.
Proof.
  intros Hc Hcmd Hname Hne Hlen Hids.
  rewrite (serve_request_dispatch create_room _ _ ci) by done.
  cbn [run_command].
  assert (ids_match (update_username st s ci req)) as Hids'.
  { apply (ids_match_same_rooms st); [apply update_username_rooms|done]. }
  pose proof (ids_match_create_room (update_username st s ci req) s req env
                Hids') as Hafter.
  pose proof (update_username_lookup st s ci req) as Huser.
  revert Hafter. unfold handle_create_room. rewrite Hname.
  rewrite bool_decide_eq_false_2 by done.
  destruct (50 <? length name) eqn:Hlt; [apply Nat.ltb_lt in Hlt; lia|].
  cbn [Room_init fst snd]. intros Hafter.
  eexists _, _, _. split; [reflexivity|]. simpl.
  rewrite update_username_rooms, lookup_insert_eq.
  split; [reflexivity|]. split.
  { intros Hfresh k r Hk.
    assert (k ≠ take 8 (env_uuid4 env)) as Hne' by congruence.
    split; [done|]. split.
    - rewrite (Hids k r Hk). done.
    - by rewrite lookup_insert_ne. }
  split; [done|]. split; [done|]. split; [done|].
  split; [apply (left_id_L ∅ (∪))|].
  split; [apply elem_of_union; right; by apply elem_of_singleton_2|].
  split; [done|]. split; [done|]. split; [|done].
  intros Hnone. unfold update_username. by rewrite Hnone.
Qed.

Lemma create_room_unique_owner_witness :
  clients alice_in_alpha !! 1 = Some alice_info
  ∧ strip (py "  Beta ") = py "Beta"
  ∧ ids_match alice_in_alpha
  ∧ rooms alice_in_alpha !! py "7c9e6679" = None
  ∧ rooms alice_in_alpha !! py "0f8fad5b" = Some alpha_room
  ∧ ∃ st' message room,
      serve_request alice_in_alpha 1
        (create_request (py "  Beta ") (py "alice")) other_env [] =
        Some (st', [Frame (RespRoom success message (py "7c9e6679") (py "Beta"))],
              [])
      ∧ rooms st' !! py "7c9e6679" = Some room
      ∧ rooms st' !! py "0f8fad5b" = Some alpha_room
      ∧ room_owner room = py "alice"
      ∧ py "alice" ∈ room_members room.
Proof.
  split; [reflexivity|]. split; [reflexivity|].
  split; [exact ids_match_alice_in_alpha|].
  split; [reflexivity|]. split; [reflexivity|].
  destruct (create_room_unique_owner alice_in_alpha 1 alice_info
              (create_request (py "  Beta ") (py "alice")) other_env []
              (py "Beta"))
    as (st' & message & room & Hserve & Hrooms & Hfresh & _ & _ & Hown & _
        & Hmem & _).
  { reflexivity. } { reflexivity. } { reflexivity. }
  { vm_compute. discriminate. } { vm_compute. lia. }
  { exact ids_match_alice_in_alpha. }
  exists st', message, room.
  split; [exact Hserve|].
  split; [rewrite Hrooms; apply lookup_insert_eq|].
  split; [apply (Hfresh eq_refl (py "0f8fad5b") alpha_room eq_refl)|].
  split; [exact Hown|exact Hmem].
Defined.

(** The identifier is not compared with the ones in use.  When bob, on a
    second connection, creates a room and [uuid4] gives the first eight
    characters that the room of alice has, the answer carries the
    identifier of that tracked room; the room of alice is replaced by
    the room of bob, and the session of alice is now bound to a room of
    which she is neither the owner nor a member. *)
Lemma create_room_identifier_collision :
  ∃ st' message,
    rooms two_clients !! py "0f8fad5b" = Some alpha_room
    ∧ room_id alpha_room = py "0f8fad5b"
    ∧ serve_request two_clients 2 (create_request (py "Beta") (py "bob"))
        default_env []
      = Some (st',
              [Frame (RespRoom success message (py "0f8fad5b") (py "Beta"))],
              [])
    ∧ room_name <$> rooms st' !! py "0f8fad5b" = Some (py "Beta")
    ∧ room_owner <$> rooms st' !! py "0f8fad5b" = Some (py "bob")
    ∧ room_members <$> rooms st' !! py "0f8fad5b" = Some {[py "bob"]}
    ∧ client_rooms st' !! 1 = Some (py "0f8fad5b")
    ∧ length (rooms_list st') = 1.
Proof.
  eexists _, _. split; [reflexivity|]. split; [reflexivity|].
  split; [vm_compute; reflexivity|].
  repeat split; vm_compute; reflexivity.
Qed.

(** The owner is the user name of the request, not the one of the
    session: alice, whose session has her name, creates a room with a
    request that carries no user name; the owner and member of the room
    is [Anonymous], while the session is still the one of alice. *)
Example create_room_owner_without_username :
  ∃ st' out,
    serve_request alice_in_alpha 1
      (mkRequest (Some (py "create_room")) None (Some (py "Beta"))
                 None None None None None None) other_env []
    = Some (st', out, [])
    ∧ ci_username <$> clients st' !! 1 = Some (py "alice")
    ∧ room_owner <$> rooms st' !! py "7c9e6679" = Some (py "Anonymous")
    ∧ room_members <$> rooms st' !! py "7c9e6679" = Some {[py "Anonymous"]}.
Proof.
  eexists _, _. split; [vm_compute; reflexivity|].
  repeat split; vm_compute; reflexivity.
Qed.

(** ** Framing of the requests *)



(** The same frame when the peer closes after one byte of payload, when
    the header arrives in two pieces, and when the declared length is
    above the limit. *)
Example receive_request_examples :
  (receive_request payload_as_command
     [Seg [x00; x00; x00; x03]; Seg [x61]]).1 = None
  ∧ (receive_request payload_as_command
       [Seg [x00; x00]; Seg [x00; x03; x61; x62; x63]]).1 = None
  ∧ receive_request payload_as_command
      [Seg [x00; xa0; x00; x01]; Seg [x61]] = (None, [Seg [x61]])
  ∧ (receive_request payload_as_command
       [Seg [x00; x00; x00; x03; x61]; Fault; Seg [x62; x63]]).1 = None.
Proof. repeat split; vm_compute; reflexivity. Qed.

(** ** Commands of a session that is bound to no room *)

(** C6: a session that is bound to no room and sends one of the commands
    on the files of a room is answered at once, and neither the registry
    nor the storage changes: [upload], [download] and [delete] are
    answered with an error that tells to join a room first, [list] with a
    success that carries the empty list.  The loop of [handle_client]
    then goes on with the next request. *)
Theorem file_command_outside_room c r st s ci req env ch :
  outside_room_reply c = Some r →
  clients st !! s = Some ci →
  client_rooms st !! s = None →
  req_command req = Some (command_name c) →
  ∃ st',
    serve_request st s req env ch = Some (st', [Frame r], ch)
    ∧ registry st' = registry st
    ∧ storage st' = storage st
    ∧ ∀ json_loads envs ch0,
        receive_request json_loads ch0 = (Some req, ch) →
        handle_client json_loads (env :: envs) st s ch0 =
          ((handle_client json_loads envs st' s ch).1,
           Frame r :: (handle_client json_loads envs st' s ch).2).
Proof.
  intros Hreply Hc Hr Hcmd. exists (update_username st s ci req).
  assert (serve_request st s req env ch =
            Some (update_username st s ci req, [Frame r], ch)) as Hserve.
  { rewrite (serve_request_dispatch c _ _ ci) by done.
    destruct c; try discriminate; simpl in Hreply; injection Hreply as <-;
      simpl;
      unfold handle_upload, handle_download, handle_delete_file,
             handle_list_files;
      by rewrite update_username_client_rooms, Hr. }
  split; [exact Hserve|].
  split; [apply update_username_registry|].
  split; [apply update_username_storage|].
  intros json_loads envs ch0 Hrx.
  apply (handle_client_continues json_loads env envs st s ch0 req ch
           (update_username st s ci req) [Frame r] ch); [done| |done].
  unfold request_is_empty. by rewrite Hcmd.
Qed.

Lemma file_command_outside_room_witness :
  clients one_client !! 1 = Some one_client_info
  ∧ client_rooms one_client !! 1 = None
  ∧ ∃ st',
      serve_request one_client 1 (simple_request (py "download") None)
                    default_env [] =
        Some (st',
              [Frame (RespMessage error
                        (py "Must join a room before downloading files"))], [])
      ∧ registry st' = registry one_client
      ∧ storage st' = storage one_client
      ∧ ∀ json_loads envs ch0,
          receive_request json_loads ch0 =
            (Some (simple_request (py "download") None), []) →
          handle_client json_loads (default_env :: envs) one_client 1 ch0 =
            ((handle_client json_loads envs st' 1 []).1,
             Frame (RespMessage error
                      (py "Must join a room before downloading files"))
             :: (handle_client json_loads envs st' 1 []).2).
Proof.
  split; [reflexivity|]. split; [reflexivity|].
  apply (file_command_outside_room download _ one_client 1 one_client_info
           (simple_request (py "download") None) default_env []);
    reflexivity.
Defined.

(** The [list] command of a session that is bound to no room is not
    answered with an error. *)
Lemma list_outside_room_not_error :
  ∃ r,
    serve_request one_client 1 (simple_request (py "list") None) default_env []
      = Some (one_client, [Frame r], [])
    ∧ client_rooms one_client !! 1 = None
    ∧ status r = success.
Proof. eexists. split; [reflexivity|]. split; reflexivity. Qed.

(** C7: the [list] command of a session that is bound to no room is
    answered with a success that carries the empty list of files. *)
Theorem list_files_outside_room st s ci req env ch :
  clients st !! s = Some ci →
  client_rooms st !! s = None →
  req_command req = Some (command_name list_files) →
  serve_request st s req env ch =
    Some (update_username st s ci req, [Frame (RespFiles success [])], ch).
Proof.
  intros Hc Hr Hcmd. rewrite (serve_request_dispatch list_files _ _ ci) by done.
  simpl. unfold handle_list_files.
  by rewrite update_username_client_rooms, Hr.
Qed.

Lemma list_files_outside_room_witness :
  clients one_client !! 1 = Some one_client_info
  ∧ client_rooms one_client !! 1 = None
  ∧ serve_request one_client 1 (simple_request (py "list") (Some (py "alice")))
      default_env [] =
      Some (update_username one_client 1 one_client_info
              (simple_request (py "list") (Some (py "alice"))),
            [Frame (RespFiles success [])], []).
Proof.
  split; [reflexivity|]. split; [reflexivity|].
  apply (list_files_outside_room one_client 1 one_client_info
           (simple_request (py "list") (Some (py "alice"))) default_env []);
    reflexivity.
Defined.

(** C8: the [leave_room] command of a session that is bound to no room is
    answered with the success [Not in any room], and the registry is
    unchanged. *)
Theorem leave_room_outside_room st s ci req env ch :
  clients st !! s = Some ci →
  client_rooms st !! s = None →
  req_command req = Some (command_name leave_room) →
  ∃ st',
    serve_request st s req env ch =
      Some (st', [Frame (RespMessage success (py "Not in any room"))], ch)
    ∧ registry st' = registry st.
Proof.
  intros Hc Hr Hcmd. exists (update_username st s ci req).
  rewrite (serve_request_dispatch leave_room _ _ ci) by done.
  split; [|apply update_username_registry].
  simpl. unfold handle_leave_room.
  rewrite update_username_client_rooms, Hr.
  unfold update_username. destruct (req_username req); simpl.
  - by rewrite lookup_insert_eq.
  - by rewrite Hc.
Qed.

Lemma leave_room_outside_room_witness :
  clients one_client !! 1 = Some one_client_info
  ∧ client_rooms one_client !! 1 = None
  ∧ ∃ st',
      serve_request one_client 1
        (simple_request (py "leave_room") (Some (py "alice"))) default_env [] =
        Some (st', [Frame (RespMessage success (py "Not in any room"))], [])
      ∧ registry st' = registry one_client.
Proof.
  split; [reflexivity|]. split; [reflexivity|].
  apply (leave_room_outside_room one_client 1 one_client_info
           (simple_request (py "leave_room") (Some (py "alice")))
           default_env []); reflexivity.
Defined.

(** ** Joining a room again *)

(** C9: adding a user name to a room that has it leaves the room as it
    is.  A [join_room] request for a room of which the user name of the
    request is a member succeeds and leaves that room as it was in the
    registry, so that the entry of the room in the list of [list_rooms],
    its member count included, is the same before and after. *)
Theorem join_room_member_idempotent st s req rid r :
  strip (default [] (req_room_id req)) = rid →
  rid ≠ [] →
  rooms st !! rid = Some r →
  default Anonymous (req_username req) ∈ room_members r →
  add_member (default Anonymous (req_username req)) r = r
  ∧ (∃ message,
       (handle_join_room st s req).2 =
         [Frame (RespRoom success message rid (room_name r))])
  ∧ rooms (handle_join_room st s req).1 !! rid = Some r
  ∧ ∀ x, rs_id x = rid →
         (x ∈ rooms_list (handle_join_room st s req).1 ↔ x ∈ rooms_list st).
Proof.
  intros Hrid Hne Hroom Hu.
  set (u := default Anonymous (req_username req)) in *.
  split; [by apply add_member_present|].
  assert (∃ message st',
            handle_join_room st s req =
              (st', [Frame (RespRoom success message rid (room_name r))])
            ∧ rooms st' !! rid = Some r) as (message & st' & Heq & Hl).
  { unfold handle_join_room. rewrite Hrid. fold u.
    rewrite bool_decide_eq_false_2 by done. rewrite Hroom.
    destruct (client_rooms st !! s) as [old_rid|] eqn:Hold.
    - destruct (rooms st !! old_rid) as [old|] eqn:Hor.
      + destruct (decide (old_rid = rid)) as [->|Hdiff].
        * assert (old = r) as -> by congruence.
          simpl. rewrite lookup_insert_eq.
          eexists _, _. split; [reflexivity|]. simpl.
          rewrite lookup_insert_eq. f_equal.
          by apply add_remove_member_present.
        * simpl. rewrite lookup_insert_ne by done. rewrite Hroom.
          eexists _, _. split; [reflexivity|]. simpl.
          rewrite lookup_insert_eq. f_equal. by apply add_member_present.
      + rewrite Hroom. eexists _, _. split; [reflexivity|]. simpl.
        rewrite lookup_insert_eq. f_equal. by apply add_member_present.
    - rewrite Hroom. eexists _, _. split; [reflexivity|]. simpl.
      rewrite lookup_insert_eq. f_equal. by apply add_member_present. }
  rewrite Heq. simpl. split; [by exists message|]. split; [done|].
  intros x Hx. rewrite !elem_of_rooms_list.
  split; intros (k & r' & Hk & ->); simpl in Hx; subst k; exists rid.
  - exists r. rewrite Hl in Hk. by injection Hk as <-.
  - exists r. rewrite Hroom in Hk. by injection Hk as <-.
Qed.

Lemma join_room_member_idempotent_witness :
  rooms alice_in_alpha !! py "0f8fad5b" = Some alpha_room
  ∧ py "alice" ∈ room_members alpha_room
  ∧ rooms (handle_join_room alice_in_alpha 1
             (room_request (py "join_room") (py " 0f8fad5b ") (py "alice"))).1
      !! py "0f8fad5b" = Some alpha_room.
Proof.
  split; [reflexivity|]. split; [exact alice_member_of_alpha|].
  destruct (join_room_member_idempotent alice_in_alpha 1
              (room_request (py "join_room") (py " 0f8fad5b ") (py "alice"))
              (py "0f8fad5b") alpha_room)
    as (_ & _ & Hroom & _).
  { reflexivity. } { vm_compute. discriminate. } { reflexivity. }
  { exact alice_member_of_alpha. }
  exact Hroom.
Defined.

(** The member count that [list_rooms] reports for the room of alice,
    before and after she joins it again. *)
Example join_again_member_count :
  rs_member_count <$> rooms_list alice_in_alpha = [1]
  ∧ rs_member_count <$>
      rooms_list (handle_join_room alice_in_alpha 1
                    (room_request (py "join_room") (py "0f8fad5b")
                                  (py "alice"))).1 = [1].
Proof. split; vm_compute; reflexivity. Qed.

(** ** A room name that is missing or blank *)

(** C10: a [create_room] request with no room name, or with a name made
    of white space only (the empty name included), is answered with the
    error [Room name is required]; the registry (the rooms and the
    bindings of the sessions) and the storage are unchanged. *)
Theorem create_room_blank_name st s ci req env ch :
  clients st !! s = Some ci →
  req_command req = Some (command_name create_room) →
  (req_room_name req = None
   ∨ ∃ name, req_room_name req = Some name ∧ blank name) →
  ∃ st',
    serve_request st s req env ch =
      Some (st', [Frame (RespMessage error (py "Room name is required"))], ch)
    ∧ registry st' = registry st ∧ storage st' = storage st.
Proof.
  intros Hc Hcmd Hname. exists (update_username st s ci req).
  rewrite (serve_request_dispatch create_room _ _ ci) by done.
  split; [|split; [apply update_username_registry|apply update_username_storage]].
  simpl. unfold handle_create_room.
  assert (strip (default [] (req_room_name req)) = []) as ->.
  { destruct Hname as [->|(name & -> & Hb)]; [done|]. by apply strip_blank. }
  reflexivity.
Qed.

Lemma create_room_blank_name_witness :
  clients one_client !! 1 = Some one_client_info
  ∧ blank (py "   ")
  ∧ ∃ st',
      serve_request one_client 1 (create_request (py "   ") (py "alice"))
        default_env [] =
        Some (st', [Frame (RespMessage error (py "Room name is required"))], [])
      ∧ registry st' = registry one_client ∧ storage st' = storage one_client.
Proof.
  assert (blank (py "   ")) as Hb by (repeat constructor).
  split; [reflexivity|]. split; [exact Hb|].
  apply (create_room_blank_name one_client 1 one_client_info
           (create_request (py "   ") (py "alice")) default_env []);
    [reflexivity|reflexivity|].
  right. exists (py "   "). split; [reflexivity|exact Hb].
Defined.

(** The same with no name at all, and with tabs and a no-break space. *)
Example create_room_blank_examples :
  (handle_create_room one_client 1
     (simple_request (py "create_room") (Some (py "alice"))) default_env)
  = (one_client, [Frame (RespMessage error (py "Room name is required"))])
  ∧ (handle_create_room one_client 1
       (create_request [9; 160; 32]%N (py "alice")) default_env)
    = (one_client, [Frame (RespMessage error (py "Room name is required"))]).
Proof. split; reflexivity. Qed.

(** ** Writing and reading the header of a frame *)

Lemma byte_of_Z_to_N z :
  (0 ≤ z < 256)%Z → Z.of_N (Byte.to_N (byte_of_Z z)) = z.
Proof.
  intros Hz. unfold byte_of_Z.
  destruct (Byte.of_N (Z.to_N z)) as [b|] eqn:Hb.
  - simpl. rewrite (Byte.to_of_N _ Hb). lia.
  - apply Byte.of_N_None_iff in Hb. lia.
Qed.

Lemma byte_of_Z_of_byte b : byte_of_Z (Z.of_N (Byte.to_N b)) = b.
Proof. unfold byte_of_Z. by rewrite N2Z.id, Byte.of_to_N. Qed.

Lemma pack_be32_some n :
  (0 ≤ n < 4294967296)%Z →
  ∃ bs, pack_be32 n = Some bs ∧ length bs = 4 ∧ unpack_be32 bs = Some n.
Proof.
  intros Hn. unfold pack_be32.
  rewrite (proj2 (Z.leb_le 0 n)), (proj2 (Z.ltb_lt n _)) by lia. simpl.
  eexists. split; [reflexivity|]. split; [reflexivity|].
  unfold unpack_be32. rewrite !byte_of_Z_to_N.
  - f_equal. Z.to_euclidean_division_equations. lia.
  - apply Z.mod_pos_bound. lia.
  - apply Z.mod_pos_bound. lia.
  - apply Z.mod_pos_bound. lia.
  - split; [apply Z.div_pos; lia|apply Z.div_lt_upper_bound; lia].
Qed.

(** X1: [struct.pack('!I', n)] succeeds exactly on the numbers of 32 bits; it
    then gives four bytes, from which [struct.unpack('!I', _)] gives [n]
    back. *)
Theorem pack_unpack_be32 n :
  ((0 ≤ n < 4294967296)%Z →
     ∃ bs, pack_be32 n = Some bs ∧ length bs = 4 ∧ unpack_be32 bs = Some n)
  ∧ ((n < 0 ∨ 4294967296 ≤ n)%Z → pack_be32 n = None).
Proof.
  split; [apply pack_be32_some|].
  intros Hn. unfold pack_be32.
  destruct (Z.leb_spec 0 n); [|done].
  destruct (Z.ltb_spec n 4294967296); [lia|done].
Qed.

Lemma pack_unpack_be32_witness :
  (∃ bs, pack_be32 max_frame = Some bs ∧ length bs = 4
         ∧ unpack_be32 bs = Some max_frame)
  ∧ pack_be32 4294967296 = None.
Proof.
  destruct (pack_unpack_be32 max_frame) as [Hin _].
  destruct (pack_unpack_be32 4294967296) as [_ Hout].
  split; [apply Hin; unfold max_frame; lia|apply Hout; lia].
Defined.

(** X2: in the other direction, four bytes that are unpacked to a number
    are the ones that packing the number gives. *)
Theorem unpack_pack_be32 bs n :
  unpack_be32 bs = Some n → pack_be32 n = Some bs.
Proof.
  intros Hbs. pose proof (unpack_be32_range bs n Hbs) as Hn.
  destruct bs as [|b0 [|b1 [|b2 [|b3 [|? ?]]]]]; try done.
  injection Hbs as <-.
  pose proof (byte_range b0). pose proof (byte_range b1).
  pose proof (byte_range b2). pose proof (byte_range b3).
  set (z0 := Z.of_N (Byte.to_N b0)) in *. set (z1 := Z.of_N (Byte.to_N b1)) in *.
  set (z2 := Z.of_N (Byte.to_N b2)) in *. set (z3 := Z.of_N (Byte.to_N b3)) in *.
  unfold pack_be32.
  rewrite (proj2 (Z.leb_le 0 _)), (proj2 (Z.ltb_lt _ 4294967296)) by lia.
  simpl.
  replace ((z0 * 16777216 + z1 * 65536 + z2 * 256 + z3) / 16777216)%Z
    with z0 by (Z.to_euclidean_division_equations; lia).
  replace ((z0 * 16777216 + z1 * 65536 + z2 * 256 + z3) / 65536 mod 256)%Z
    with z1 by (Z.to_euclidean_division_equations; lia).
  replace ((z0 * 16777216 + z1 * 65536 + z2 * 256 + z3) / 256 mod 256)%Z
    with z2 by (Z.to_euclidean_division_equations; lia).
  replace ((z0 * 16777216 + z1 * 65536 + z2 * 256 + z3) mod 256)%Z
    with z3 by (Z.to_euclidean_division_equations; lia).
  subst z0 z1 z2 z3. by rewrite !byte_of_Z_of_byte.
Qed.

Lemma unpack_pack_be32_witness :
  unpack_be32 [x00; x00; x01; x02] = Some 258%Z
  ∧ pack_be32 258 = Some [x00; x00; x01; x02].
Proof.
  split; [reflexivity|].
  apply (unpack_pack_be32 [x00; x00; x01; x02] 258). reflexivity.
Defined.

(** ** A frame that is written is read back *)

(** X3: a payload of at most 10 MiB, framed as [send_response] frames its
    data, and arriving with the whole header in the first piece, is what
    [receive_request] decodes, in whatever pieces the rest arrives; the
    bytes that follow the frame are left to arrive. *)
Theorem receive_request_frame_round_trip json_loads data frame first ch more :
  frame_bytes data = Some frame →
  (Z.of_nat (length data) ≤ max_frame)%Z →
  4 ≤ length first →
  first ++ available ch = frame ++ more →
  ∃ ch2,
    receive_request json_loads (Seg first :: ch) = (json_loads data, ch2)
    ∧ available ch2 = more.
Proof.
  intros Hframe Hmax Hfirst Hstream. unfold frame_bytes in Hframe.
  destruct (pack_be32 (Z.of_nat (length data))) as [hdr|] eqn:Hpack; [|done].
  injection Hframe as <-.
  assert (0 ≤ Z.of_nat (length data) < 4294967296)%Z as Hrange.
  { unfold max_frame in Hmax. lia. }
  destruct (pack_be32_some _ Hrange) as (hdr' & Hpack' & Hlen & Hunpack).
  rewrite Hpack in Hpack'. injection Hpack' as <-.
  rewrite <- app_assoc in Hstream.
  assert (take 4 first = hdr) as Hhdr.
  { rewrite <- (take_app_le first (available ch)) by done.
    rewrite Hstream. apply take_app_length'. by symmetry. }
  set (ch1 := match drop 4 first with [] => ch | m => Seg m :: ch end).
  assert (available ch1 = data ++ more) as Hav.
  { assert (drop 4 first ++ available ch = data ++ more) as Hd.
    { rewrite <- drop_app_le by done. rewrite Hstream.
      apply drop_app_length'. by symmetry. }
    subst ch1. by destruct (drop 4 first). }
  assert (recv 4 (Seg first :: ch) = (Data hdr, ch1)) as Hrecv.
  { destruct first as [|b bs]; [simpl in Hfirst; lia|].
    subst ch1. rewrite <- Hhdr. reflexivity. }
  unfold receive_request. rewrite Hrecv.
  destruct hdr as [|h0 hdr]; [done|]. rewrite Hunpack.
  destruct (Z.gtb_spec (Z.of_nat (length data)) max_frame) as [?|_]; [lia|].
  destruct (receive_data_spec (Z.to_nat (Z.of_nat (length data)))
              (Z.of_nat (length data)) [] ch1 (length data))
    as [Hfull _]; [simpl; lia|lia|].
  destruct Hfull as (ch2 & -> & Hrest).
  { rewrite Hav, length_app. lia. }
  exists ch2. rewrite Hav in *. simpl.
  rewrite take_app_length in *. rewrite drop_app_length in Hrest. done.
Qed.

Lemma receive_request_frame_round_trip_witness :
  frame_bytes abc = Some [x00; x00; x00; x03; x61; x62; x63]
  ∧ ∃ ch2,
      receive_request payload_as_command
        [Seg [x00; x00; x00; x03; x61]; Seg [x62]; Seg [x63; x64]; Seg [x65]]
        = (Some (simple_request (py "abc") None), ch2)
      ∧ available ch2 = [x64; x65].
Proof.
  split; [reflexivity|].
  apply (receive_request_frame_round_trip payload_as_command abc
           [x00; x00; x00; x03; x61; x62; x63] [x00; x00; x00; x03; x61]
           [Seg [x62]; Seg [x63; x64]; Seg [x65]] [x64; x65]).
  - reflexivity.
  - unfold max_frame. simpl. lia.
  - simpl. lia.
  - reflexivity.
Defined.

(** ** What the handlers leave alone *)

(** No handler touches the dictionary of the sessions. *)
Lemma run_command_clients c st s req env ch :
  clients (run_command c st s req env ch).1.1 = clients st.
Proof.
  destruct c; cbn [run_command fst snd].
  - unfold handle_create_room.
    destruct (bool_decide _); [done|]. by destruct (_ <? _).
  - unfold handle_join_room.
    destruct (bool_decide _); [done|].
    destruct (rooms st !! _); [|done].
    set (st1 := match client_rooms st !! s with Some _ => _ | None => _ end).
    assert (clients st1 = clients st) as Hst1.
    { subst st1. destruct (client_rooms st !! s) as [old_rid|]; [|done].
      by destruct (rooms st !! old_rid). }
    by destruct (rooms st1 !! _).
  - unfold handle_leave_room.
    destruct (clients st !! s); [|done].
    destruct (client_rooms st !! s) as [rid|]; [|done]. simpl.
    by destruct (rooms st !! rid).
  - unfold handle_delete_room.
    destruct (clients st !! s); [|done].
    destruct (if bool_decide _ then _ else _) as [room|]; [|done].
    destruct (bool_decide _); [done|]. simpl.
    by destruct (cleanup_frame room env
                   (set_client_rooms
                      (filter (λ kv, kv.2 ≠ strip (default [] (req_room_id req))))
                      st)) as (-> & _).
  - done.
  - unfold handle_upload.
    destruct (client_rooms st !! s) as [rid|]; [|done].
    destruct (rooms st !! rid) as [room|]; [|done].
    destruct (bool_decide _); [done|]. destruct (_ >? _)%Z; [done|].
    destruct (env_open_raises env); [done|].
    set (file_path := path_join _ _).
    destruct (receive_file_frame (Z.to_nat (default 0%Z (req_file_size req)))
                (default 0%Z (req_file_size req)) 0 file_path
                (set_fs_files (<[file_path := []]>) st) ch) as (Hc & _).
    destruct (_ || _); [done|]. destruct (bool_decide _); simpl; [|done].
    by destruct (env_remove_raises env).
  - unfold handle_download.
    destruct (client_rooms st !! s) as [rid|]; [|done].
    destruct (rooms st !! rid) as [room|]; [|done].
    destruct (room_files room !! _); [|done].
    destruct (negb _); [done|]. by destruct (fs_files st !! _).
  - unfold handle_delete_file.
    destruct (client_rooms st !! s) as [rid|]; [|done].
    destruct (rooms st !! rid) as [room|] eqn:Hroom; [|done].
    destruct (room_files room !! _) eqn:Hf; [|done].
    unfold remove_file. rewrite Hroom, Hf. by destruct (_ && _).
  - unfold handle_list_files.
    destruct (client_rooms st !! s) as [rid|]; [|done].
    by destruct (rooms st !! rid).
Qed.

Lemma serve_request_clients st s req env ch st' out ch' :
  serve_request st s req env ch = Some (st', out, ch') →
  ∃ ci, clients st !! s = Some ci
    ∧ clients st' = clients (update_username st s ci req).
Proof.
  intros Hs. apply serve_request_inv in Hs as (ci & Hc & [[c Heq]|[r Heq]]).
  - exists ci. split; [done|].
    pose proof (run_command_clients c (update_username st s ci req) s req env
                  ch) as H.
    by rewrite <- Heq in H.
  - exists ci. split; [done|]. by injection Heq as ->.
Qed.

Lemma update_username_clients_known st s ci req :
  clients st !! s = Some ci →
  is_Some (clients (update_username st s ci req) !! s)
  ∧ ∀ s', s' ≠ s →
          clients (update_username st s ci req) !! s' = clients st !! s'.
Proof.
  intros Hc. unfold update_username. destruct (req_username req); simpl.
  - rewrite lookup_insert_eq. split; [by eexists|].
    intros s' Hs'. by rewrite lookup_insert_ne.
  - split; [by eexists|done].
Qed.

Lemma disconnect_client_known st s ci :
  clients st !! s = Some ci →
  clients (disconnect_client st s) = delete s (clients st)
  ∧ client_rooms (disconnect_client st s) = delete s (client_rooms st).
Proof.
  intros Hc. unfold disconnect_client. rewrite Hc.
  destruct (client_rooms st !! s) as [rid|] eqn:Hb.
  - by destruct (rooms st !! rid).
  - simpl. split; [done|]. symmetry. by apply delete_id.
Qed.

(** ** The end of a connection *)

(** X4: however the loop of [handle_client] ends (the peer closed, a fault,
    a frame that cannot be read, an empty request, the server stopping),
    the socket it served is afterwards neither in [clients] nor in
    [client_rooms], and the entries of the other sockets in [clients] are
    as they were. *)
Theorem handle_client_unregisters json_loads envs st s ci ch :
  clients st !! s = Some ci →
  clients (handle_client json_loads envs st s ch).1 = delete s (clients st)
  ∧ client_rooms (handle_client json_loads envs st s ch).1 !! s = None.
Proof.
  revert st ci ch. induction envs as [|env envs IH]; intros st ci ch Hc.
  - simpl. destruct (disconnect_client_known st s ci Hc) as [-> ->].
    split; [done|apply lookup_delete_eq].
  - simpl.
    assert (clients (disconnect_client st s) = delete s (clients st)
            ∧ client_rooms (disconnect_client st s) !! s = None) as Hend.
    { destruct (disconnect_client_known st s ci Hc) as [-> ->].
      split; [done|apply lookup_delete_eq]. }
    destruct (receive_request json_loads ch) as [[req|] ch1]; [|done].
    destruct (request_is_empty req); [done|].
    destruct (serve_request st s req env ch1) as [[[st1 out] ch2]|] eqn:Hs;
      [|done].
    apply serve_request_clients in Hs as (ci' & Hc' & Hcl).
    rewrite Hc in Hc'. injection Hc' as <-.
    destruct (update_username_clients_known st s ci req Hc) as [[ci1 Hk] Hoth].
    rewrite <- Hcl in Hk.
    destruct (IH st1 ci1 ch2 Hk) as [IH1 IH2].
    destruct (handle_client json_loads envs st1 s ch2) as [st2 out'].
    simpl in *. split; [|done].
    rewrite IH1, Hcl. apply map_eq. intros s'.
    destruct (decide (s' = s)) as [->|Hne].
    + by rewrite !lookup_delete_eq.
    + rewrite !lookup_delete_ne by done. by apply Hoth.
Qed.

Lemma handle_client_unregisters_witness :
  clients alice_in_alpha !! 1 = Some alice_info
  ∧ clients (handle_client payload_as_command [default_env; other_env]
               alice_in_alpha 1
               [Seg [x00; x00; x00; x04]; Seg [x6c; x69; x73; x74]]).1
    = delete 1 (clients alice_in_alpha)
  ∧ client_rooms (handle_client payload_as_command [default_env; other_env]
                    alice_in_alpha 1
                    [Seg [x00; x00; x00; x04]; Seg [x6c; x69; x73; x74]]).1
      !! 1 = None.
Proof.
  split; [reflexivity|].
  apply (handle_client_unregisters payload_as_command [default_env; other_env]
           alice_in_alpha 1 alice_info). reflexivity.
Defined.

(** ** Sessions are bound to rooms of the registry *)

Lemma bindings_valid_init : bindings_valid FileServer_init.
Proof. intros s rid. unfold FileServer_init. simpl. by rewrite lookup_empty. Qed.

Lemma bindings_valid_same st st' :
  rooms st' = rooms st → client_rooms st' = client_rooms st →
  bindings_valid st → bindings_valid st'.
Proof. unfold bindings_valid. by intros -> ->. Qed.

(** Replacing a room of the registry keeps the bindings valid. *)
Lemma bindings_valid_update st rid r :
  bindings_valid st → bindings_valid (set_rooms (<[rid := r]>) st).
Proof.
  intros Hb s k Hs. simpl in *. apply lookup_insert_is_Some.
  destruct (decide (rid = k)); [by left|right]. split; [done|]. by apply (Hb s).
Qed.

Lemma bindings_valid_bind st s rid :
  bindings_valid st → is_Some (rooms st !! rid) →
  bindings_valid (set_client_rooms (<[s := rid]>) st).
Proof.
  intros Hb Hr s' k. simpl. destruct (decide (s = s')) as [->|Hne].
  - rewrite lookup_insert_eq. by intros [= <-].
  - rewrite lookup_insert_ne by done. apply Hb.
Qed.

Lemma bindings_valid_unbind st s :
  bindings_valid st → bindings_valid (set_client_rooms (delete s) st).
Proof.
  intros Hb s' k. simpl. intros [_ Hs]%lookup_delete_Some. by apply (Hb s').
Qed.

Lemma bindings_valid_create_room st s req env :
  bindings_valid st → bindings_valid (handle_create_room st s req env).1.
Proof.
  intros Hb. unfold handle_create_room.
  destruct (bool_decide _); [done|]. destruct (_ <? _); [done|].
  cbn [Room_init fst snd].
  apply bindings_valid_bind; [apply bindings_valid_update|].
  - by apply (bindings_valid_same st).
  - simpl. rewrite lookup_insert_eq. by eexists.
Qed.

Lemma bindings_valid_join_room st s req :
  bindings_valid st → bindings_valid (handle_join_room st s req).1.
Proof.
  intros Hb. unfold handle_join_room.
  destruct (bool_decide _); [done|].
  destruct (rooms st !! _); [|done].
  set (st1 := match client_rooms st !! s with Some _ => _ | None => _ end).
  assert (bindings_valid st1) as Hb1.
  { subst st1. destruct (client_rooms st !! s) as [old_rid|]; [|done].
    destruct (rooms st !! old_rid); [|done]. by apply bindings_valid_update. }
  destruct (rooms st1 !! _) as [r1|] eqn:Hr1; [|done]. cbn [fst].
  apply bindings_valid_bind; [by apply bindings_valid_update|].
  simpl. rewrite lookup_insert_eq. by eexists.
Qed.

Lemma bindings_valid_leave_room st s req :
  bindings_valid st → bindings_valid (handle_leave_room st s req).1.
Proof.
  intros Hb. unfold handle_leave_room.
  destruct (clients st !! s); [|done].
  destruct (client_rooms st !! s) as [rid|]; [|done]. cbn [fst].
  apply bindings_valid_unbind.
  destruct (rooms st !! rid); [|done]. by apply bindings_valid_update.
Qed.

Lemma bindings_valid_delete_room st s req env :
  bindings_valid st → bindings_valid (handle_delete_room st s req env).1.
Proof.
  intros Hb. unfold handle_delete_room.
  destruct (clients st !! s); [|done].
  destruct (if bool_decide _ then _ else _) as [room|]; [|done].
  destruct (bool_decide _); [done|]. cbn [fst].
  set (rid := strip (default [] (req_room_id req))).
  destruct (cleanup_frame room env
              (set_client_rooms (filter (λ kv, kv.2 ≠ rid)) st))
    as (_ & Hrooms & Hbind).
  intros s' k. simpl. rewrite Hrooms, Hbind. simpl.
  intros [Hs Hk]%map_lookup_filter_Some. simpl in Hk.
  rewrite lookup_delete_ne by done. by apply (Hb s').
Qed.

Lemma bindings_valid_upload st s req env ch :
  bindings_valid st → bindings_valid (handle_upload st s req env ch).1.1.
Proof.
  intros Hb. unfold handle_upload.
  destruct (client_rooms st !! s) as [rid|]; [|done].
  destruct (rooms st !! rid) as [room|] eqn:Hroom; [|done].
  destruct (bool_decide _); [done|]. destruct (_ >? _)%Z; [done|].
  destruct (env_open_raises env); [done|].
  set (file_path := path_join _ _).
  set (rc := receive_file _ _ _ _ _ _).
  assert (bindings_valid (rc_state rc)) as Hrc.
  { subst rc.
    destruct (receive_file_frame
                (Z.to_nat (default 0%Z (req_file_size req)))
                (default 0%Z (req_file_size req)) 0 file_path
                (set_fs_files (<[file_path := []]>) st) ch)
      as (_ & Hr & Hc & _).
    by apply (bindings_valid_same st). }
  destruct (rc_raised rc || rc_out_of_fuel rc); [done|].
  destruct (bool_decide _); cbn [fst].
  - destruct (env_remove_raises env); [done|].
    by apply (bindings_valid_same (rc_state rc)).
  - by apply bindings_valid_update.
Qed.

Lemma bindings_valid_delete_file st s req env :
  bindings_valid st → bindings_valid (handle_delete_file st s req env).1.
Proof.
  intros Hb. unfold handle_delete_file.
  destruct (client_rooms st !! s) as [rid|]; [|done].
  destruct (rooms st !! rid) as [room|] eqn:Hroom; [|done].
  destruct (room_files room !! _) eqn:Hf; [|done].
  unfold remove_file. rewrite Hroom, Hf.
  destruct (_ && _); cbn [fst]; [done|].
  apply bindings_valid_update. by apply (bindings_valid_same st).
Qed.

Lemma bindings_valid_run_command c st s req env ch :
  bindings_valid st → bindings_valid (run_command c st s req env ch).1.1.
Proof.
  intros Hb. destruct c; cbn [run_command fst];
    eauto using bindings_valid_create_room, bindings_valid_join_room,
      bindings_valid_leave_room, bindings_valid_delete_room,
      bindings_valid_delete_file, bindings_valid_upload.
  - unfold handle_download.
    destruct (client_rooms st !! s) as [rid|]; [|done].
    destruct (rooms st !! rid) as [room|]; [|done].
    destruct (room_files room !! _); [|done].
    destruct (negb _); [done|]. by destruct (fs_files st !! _).
  - unfold handle_list_files.
    destruct (client_rooms st !! s) as [rid|]; [|done].
    by destruct (rooms st !! rid).
Qed.

Lemma bindings_valid_serve_request st s req env ch st' out ch' :
  bindings_valid st →
  serve_request st s req env ch = Some (st', out, ch') →
  bindings_valid st'.
Proof.
  intros Hb Hs.
  assert (bindings_valid (update_username st s
            (default (mkClientInfo [] [] []) (clients st !! s)) req)) as Hb'.
  { apply (bindings_valid_same st); [apply update_username_rooms| |done].
    apply update_username_client_rooms. }
  apply serve_request_inv in Hs as (ci & Hc & [[c Heq]|[r Heq]]);
    rewrite Hc in Hb'; simpl in Hb'.
  - pose proof (bindings_valid_run_command c _ s req env ch Hb') as H.
    by rewrite <- Heq in H.
  - by injection Heq as -> _ _.
Qed.

Lemma bindings_valid_disconnect st s :
  bindings_valid st → bindings_valid (disconnect_client st s).
Proof.
  intros Hb. unfold disconnect_client.
  destruct (client_rooms st !! s) as [rid|]; [|by apply (bindings_valid_same st)].
  destruct (rooms st !! rid).
  - destruct (clients st !! s); [|done].
    apply (bindings_valid_same
             (set_client_rooms (delete s)
                (set_rooms (<[rid := remove_member (ci_username c) r]>) st)));
      [done|done|].
    by apply bindings_valid_unbind, bindings_valid_update.
  - apply (bindings_valid_same (set_client_rooms (delete s) st)); [done|done|].
    by apply bindings_valid_unbind.
Qed.

(** X5: whatever a connection does, from its first request to its end, the
    sessions that are bound to a room stay bound to rooms of the
    registry: no command leaves a binding to a room that is gone. *)
Theorem handle_client_bindings_valid json_loads envs st s ch :
  bindings_valid st →
  bindings_valid (handle_client json_loads envs st s ch).1.
Proof.
  revert st ch. induction envs as [|env envs IH]; intros st ch Hb; simpl.
  - by apply bindings_valid_disconnect.
  - destruct (receive_request json_loads ch) as [[req|] ch1];
      [|by apply bindings_valid_disconnect].
    destruct (request_is_empty req); [by apply bindings_valid_disconnect|].
    destruct (serve_request st s req env ch1) as [[[st1 out] ch2]|] eqn:Hs;
      [|by apply bindings_valid_disconnect].
    pose proof (IH st1 ch2 (bindings_valid_serve_request _ _ _ _ _ _ _ _ Hb Hs))
      as H.
    by destruct (handle_client json_loads envs st1 s ch2).
Qed.

Lemma bindings_valid_alice_in_alpha : bindings_valid alice_in_alpha.
Proof.
  intros s rid H. unfold alice_in_alpha, client_rooms in H.
  apply lookup_singleton_Some in H as [<- <-]. by eexists.
Qed.

Lemma handle_client_bindings_valid_witness :
  bindings_valid alice_in_alpha
  ∧ bindings_valid
      (handle_client payload_as_command [default_env; other_env]
         alice_in_alpha 1
         [Seg [x00; x00; x00; x04]; Seg [x6c; x69; x73; x74]]).1.
Proof.
  split; [exact bindings_valid_alice_in_alpha|].
  apply handle_client_bindings_valid. exact bindings_valid_alice_in_alpha.
Defined.

(** ** The directories of the rooms *)

Lemma dirs_exist_init : dirs_exist FileServer_init.
Proof. intros k r. unfold FileServer_init. simpl. by rewrite lookup_empty. Qed.

Lemma dirs_exist_same st st' :
  rooms st' = rooms st → fs_dirs st' = fs_dirs st →
  dirs_exist st → dirs_exist st'.
Proof. unfold dirs_exist. by intros -> ->. Qed.

(** Replacing a room by one with the same directory. *)
Lemma dirs_exist_update st k r r' :
  dirs_exist st → rooms st !! k = Some r → room_dir r' = room_dir r →
  dirs_exist (set_rooms (<[k := r']>) st).
Proof.
  intros Hd Hk Hdir k' r''. simpl. destruct (decide (k = k')) as [<-|Hne].
  - rewrite lookup_insert_eq. intros [= <-]. rewrite Hdir. by apply Hd.
  - rewrite lookup_insert_ne by done. apply Hd.
Qed.

Lemma room_dir_not_prefix (k k' : list N) :
  k ≠ k' → ¬ path_join rooms_root k `prefix_of` path_join rooms_root k'.
Proof.
  unfold path_join. intros Hne Hpre. apply prefix_app_inv in Hpre.
  destruct Hpre as [rest Hrest]. by injection Hrest.
Qed.

Lemma dirs_exist_create_room st s req env :
  dirs_exist st → dirs_exist (handle_create_room st s req env).1.
Proof.
  intros Hd. unfold handle_create_room.
  destruct (bool_decide _); [done|]. destruct (_ <? _); [done|].
  cbn [Room_init fst snd]. intros k r. simpl.
  destruct (decide (take 8 (env_uuid4 env) = k)) as [<-|Hne].
  - rewrite lookup_insert_eq. intros [= <-]. simpl. split; [done|].
    apply elem_of_union. right. unfold rooms_root, path_join. simpl.
    apply elem_of_union. right. apply elem_of_union. left.
    by apply elem_of_singleton_2.
  - rewrite lookup_insert_ne by done. intros Hk.
    destruct (Hd k r Hk) as [Hdir Hin]. split; [done|].
    apply elem_of_union. by left.
Qed.

Lemma dirs_exist_join_room st s req :
  dirs_exist st → dirs_exist (handle_join_room st s req).1.
Proof.
  intros Hd. unfold handle_join_room.
  destruct (bool_decide _); [done|].
  destruct (rooms st !! _); [|done].
  set (st1 := match client_rooms st !! s with Some _ => _ | None => _ end).
  assert (dirs_exist st1) as Hd1.
  { subst st1. destruct (client_rooms st !! s) as [old_rid|]; [|done].
    destruct (rooms st !! old_rid) as [old|] eqn:Hold; [|done].
    by apply (dirs_exist_update st old_rid old). }
  destruct (rooms st1 !! _) as [r1|] eqn:Hr1; [|done]. cbn [fst].
  apply (dirs_exist_same
           (set_rooms
              (<[strip (default [] (req_room_id req))
                 := add_member (default Anonymous (req_username req)) r1]>)
              st1)); [done|done|].
  by apply (dirs_exist_update st1 _ r1).
Qed.

Lemma dirs_exist_leave_room st s req :
  dirs_exist st → dirs_exist (handle_leave_room st s req).1.
Proof.
  intros Hd. unfold handle_leave_room.
  destruct (clients st !! s) as [ci|]; [|done].
  destruct (client_rooms st !! s) as [rid|]; [|done]. cbn [fst].
  destruct (rooms st !! rid) as [r|] eqn:Hr.
  - apply (dirs_exist_same
             (set_rooms (<[rid := remove_member (ci_username ci) r]>) st));
      [done|done|].
    by apply (dirs_exist_update st rid r).
  - by apply (dirs_exist_same st).
Qed.

Lemma dirs_exist_delete_room st s req env :
  dirs_exist st → dirs_exist (handle_delete_room st s req env).1.
Proof.
  intros Hd. unfold handle_delete_room.
  destruct (clients st !! s); [|done].
  set (rid := strip (default [] (req_room_id req))).
  destruct (bool_decide (rid = [])); [done|].
  destruct (rooms st !! rid) as [room|] eqn:Hroom; [|done].
  destruct (bool_decide _); [done|]. cbn [fst].
  destruct (Hd rid room Hroom) as [Hdir _].
  intros k r. simpl.
  destruct (cleanup_frame room env
              (set_client_rooms (filter (λ kv, kv.2 ≠ rid)) st))
    as (_ & -> & _). simpl.
  intros [Hne Hk]%lookup_delete_Some.
  destruct (Hd k r Hk) as [Hdir' Hin]. split; [done|].
  unfold cleanup. destruct (path_exists _ _); [|done].
  destruct (env_rmtree_raises env); [done|].
  unfold rmtree. simpl. apply elem_of_filter. split; [|done].
  rewrite Hdir, Hdir'. by apply room_dir_not_prefix.
Qed.

Lemma dirs_exist_upload st s req env ch :
  dirs_exist st → dirs_exist (handle_upload st s req env ch).1.1.
Proof.
  intros Hd. unfold handle_upload.
  destruct (client_rooms st !! s) as [rid|]; [|done].
  destruct (rooms st !! rid) as [room|] eqn:Hroom; [|done].
  destruct (bool_decide _); [done|]. destruct (_ >? _)%Z; [done|].
  destruct (env_open_raises env); [done|].
  set (file_path := path_join _ _).
  set (rc := receive_file _ _ _ _ _ _).
  assert (rooms (rc_state rc) = rooms st ∧ fs_dirs (rc_state rc) = fs_dirs st)
    as [Hr Hf].
  { subst rc.
    by destruct (receive_file_frame
                   (Z.to_nat (default 0%Z (req_file_size req)))
                   (default 0%Z (req_file_size req)) 0 file_path
                   (set_fs_files (<[file_path := []]>) st) ch)
      as (_ & -> & _ & ->). }
  assert (dirs_exist (rc_state rc)) as Hrc by by apply (dirs_exist_same st).
  destruct (rc_raised rc || rc_out_of_fuel rc); [done|].
  destruct (bool_decide _); cbn [fst].
  - destruct (env_remove_raises env); [done|].
    by apply (dirs_exist_same (rc_state rc)).
  - apply (dirs_exist_update (rc_state rc) rid room); [done| |done].
    by rewrite Hr.
Qed.

Lemma dirs_exist_delete_file st s req env :
  dirs_exist st → dirs_exist (handle_delete_file st s req env).1.
Proof.
  intros Hd. unfold handle_delete_file.
  destruct (client_rooms st !! s) as [rid|]; [|done].
  destruct (rooms st !! rid) as [room|] eqn:Hroom; [|done].
  destruct (room_files room !! _) eqn:Hf; [|done].
  unfold remove_file. rewrite Hroom, Hf.
  destruct (_ && _); cbn [fst]; [done|].
  apply (dirs_exist_update _ rid room); [|done|done].
  by apply (dirs_exist_same st).
Qed.

Lemma dirs_exist_run_command c st s req env ch :
  dirs_exist st → dirs_exist (run_command c st s req env ch).1.1.
Proof.
  intros Hd. destruct c; cbn [run_command fst];
    eauto using dirs_exist_create_room, dirs_exist_join_room,
      dirs_exist_leave_room, dirs_exist_delete_room,
      dirs_exist_delete_file, dirs_exist_upload.
  - unfold handle_download.
    destruct (client_rooms st !! s) as [rid|]; [|done].
    destruct (rooms st !! rid) as [room|]; [|done].
    destruct (room_files room !! _); [|done].
    destruct (negb _); [done|]. by destruct (fs_files st !! _).
  - unfold handle_list_files.
    destruct (client_rooms st !! s) as [rid|]; [|done].
    by destruct (rooms st !! rid).
Qed.

Lemma dirs_exist_serve_request st s req env ch st' out ch' :
  dirs_exist st →
  serve_request st s req env ch = Some (st', out, ch') →
  dirs_exist st'.
Proof.
  intros Hd Hs.
  apply serve_request_inv in Hs as (ci & Hc & [[c Heq]|[r Heq]]).
  - assert (dirs_exist (update_username st s ci req)) as Hd'.
    { apply (dirs_exist_same st); [apply update_username_rooms| |done].
      unfold update_username. by destruct (req_username req). }
    pose proof (dirs_exist_run_command c _ s req env ch Hd') as H.
    by rewrite <- Heq in H.
  - injection Heq as -> _ _.
    apply (dirs_exist_same st); [apply update_username_rooms| |done].
    unfold update_username. by destruct (req_username req).
Qed.

Lemma dirs_exist_disconnect st s :
  dirs_exist st → dirs_exist (disconnect_client st s).
Proof.
  intros Hd. unfold disconnect_client.
  destruct (client_rooms st !! s) as [rid|]; [|by apply (dirs_exist_same st)].
  destruct (rooms st !! rid) as [r|] eqn:Hr.
  - destruct (clients st !! s) as [ci|]; [|done].
    apply (dirs_exist_same
             (set_rooms (<[rid := remove_member (ci_username ci) r]>) st));
      [done|done|].
    by apply (dirs_exist_update st rid r).
  - by apply (dirs_exist_same st).
Qed.

(** X6: whatever a connection does, every room of the registry keeps its
    directory on disk, the one named by the key of the room under
    [rooms/]: deleting a room removes the directory of that room only. *)
Theorem handle_client_dirs_exist json_loads envs st s ch :
  dirs_exist st →
  dirs_exist (handle_client json_loads envs st s ch).1.
Proof.
  revert st ch. induction envs as [|env envs IH]; intros st ch Hd; simpl.
  - by apply dirs_exist_disconnect.
  - destruct (receive_request json_loads ch) as [[req|] ch1];
      [|by apply dirs_exist_disconnect].
    destruct (request_is_empty req); [by apply dirs_exist_disconnect|].
    destruct (serve_request st s req env ch1) as [[[st1 out] ch2]|] eqn:Hs;
      [|by apply dirs_exist_disconnect].
    pose proof (IH st1 ch2 (dirs_exist_serve_request _ _ _ _ _ _ _ _ Hd Hs))
      as H.
    by destruct (handle_client json_loads envs st1 s ch2).
Qed.

Lemma dirs_exist_alice_in_alpha : dirs_exist alice_in_alpha.
Proof.
  intros k r H. unfold alice_in_alpha, rooms in H.
  apply lookup_singleton_Some in H as [<- <-]. split; [reflexivity|].
  unfold alice_in_alpha, alpha_room. cbn [fs_dirs room_dir].
  apply elem_of_union. right. by apply elem_of_singleton_2.
Qed.

Lemma handle_client_dirs_exist_witness :
  dirs_exist alice_in_alpha
  ∧ dirs_exist
      (handle_client payload_as_command [default_env; other_env]
         alice_in_alpha 1
         [Seg [x00; x00; x00; x04]; Seg [x6c; x69; x73; x74]]).1.
Proof.
  split; [exact dirs_exist_alice_in_alpha|].
  apply handle_client_dirs_exist. exact dirs_exist_alice_in_alpha.
Defined.

(** ** Deleting a room unbinds its sessions *)

(** X7: when the owner deletes a room, every session that was bound to it is
    bound to no room afterwards, the owner's included; the bindings to
    other rooms, the other rooms and the sessions are as they were. *)
Theorem delete_room_evicts_sessions st s ci req env rid room :
  clients st !! s = Some ci →
  strip (default [] (req_room_id req)) = rid →
  rid ≠ [] →
  rooms st !! rid = Some room →
  room_owner room = ci_username ci →
  rooms (handle_delete_room st s req env).1 = delete rid (rooms st)
  ∧ clients (handle_delete_room st s req env).1 = clients st
  ∧ ∀ s',
      client_rooms (handle_delete_room st s req env).1 !! s'
      = if decide (client_rooms st !! s' = Some rid) then None
        else client_rooms st !! s'.
Proof.
  intros Hc Hrid Hne Hroom Hown. unfold handle_delete_room.
  rewrite Hc, Hrid, bool_decide_eq_false_2, Hroom by done.
  rewrite bool_decide_eq_false_2 by (intros ?; done). cbn [fst].
  destruct (cleanup_frame room env
              (set_client_rooms (filter (λ kv, kv.2 ≠ rid)) st))
    as (Hcl & Hrooms & Hbind).
  simpl. rewrite Hcl, Hrooms, Hbind. simpl.
  split; [done|]. split; [done|]. intros s'.
  destruct (decide (client_rooms st !! s' = Some rid)) as [Hs'|Hs'].
  - apply map_lookup_filter_None. right. intros k Hk. simpl.
    rewrite Hs' in Hk. injection Hk as <-. by intros ?.
  - destruct (client_rooms st !! s') as [k|] eqn:Hk.
    + apply map_lookup_filter_Some. split; [done|]. simpl. congruence.
    + apply map_lookup_filter_None. by left.
Qed.

Lemma delete_room_evicts_sessions_witness :
  clients alice_in_alpha !! 1 = Some alice_info
  ∧ rooms alice_in_alpha !! py "0f8fad5b" = Some alpha_room
  ∧ client_rooms alice_in_alpha !! 1 = Some (py "0f8fad5b")
  ∧ client_rooms
      (handle_delete_room alice_in_alpha 1
         (room_request (py "delete_room") (py "0f8fad5b") (py "alice"))
         default_env).1 !! 1 = None.
Proof.
  split; [reflexivity|]. split; [reflexivity|]. split; [reflexivity|].
  destruct (delete_room_evicts_sessions alice_in_alpha 1 alice_info
              (room_request (py "delete_room") (py "0f8fad5b") (py "alice"))
              default_env (py "0f8fad5b") alpha_room)
    as (_ & _ & Hbind).
  { reflexivity. } { reflexivity. } { vm_compute. discriminate. }
  { reflexivity. } { reflexivity. }
  rewrite (Hbind 1). reflexivity.
Defined.

(** ** Downloading a file *)

Lemma chunk_limit_pos : 0 < chunk_limit.
Proof. unfold chunk_limit. lia. Qed.

(** The pieces that [handle_download] sends make up the file, and each
    of them has at least one byte and at most [chunk_limit], that is
    8192. *)
Lemma chunks_content fuel : ∀ content,
  length content ≤ fuel →
  raw_bytes (chunks fuel content) = content
  ∧ Forall (λ o, ∃ bs, o = Raw bs ∧ 0 < length bs ≤ chunk_limit)
           (chunks fuel content).
Proof.
  pose proof chunk_limit_pos as Hpos.
  induction fuel as [|fuel IH]; intros content Hlen.
  - destruct content; [done|simpl in Hlen; lia].
  - destruct content as [|b content]; [done|].
    cbn [chunks]. remember (b :: content) as c eqn:Hc.
    assert (0 < length c) as Hc' by (subst c; simpl; lia). clear Hc.
    destruct (IH (drop chunk_limit c)) as [IH1 IH2].
    { rewrite length_drop. lia. }
    split.
    + cbn [raw_bytes]. rewrite IH1. apply take_drop.
    + constructor; [|done]. eexists. split; [reflexivity|].
      rewrite length_take. lia.
Qed.

Lemma handle_download_content st s req rid room fi content :
  client_rooms st !! s = Some rid →
  rooms st !! rid = Some room →
  room_files room !! default [] (req_file_id req) = Some fi →
  fs_files st !! path_join (room_dir room) (fi_filename fi) = Some content →
  handle_download st s req
  = (st, Frame (RespFileInfo success (fi_name fi) (fi_size fi))
         :: chunks (length content) content).
Proof.
  intros Hb Hroom Hfi Hfile. unfold handle_download.
  rewrite Hb, Hroom, Hfi. unfold path_exists. rewrite Hfile.
  rewrite (bool_decide_eq_true_2 (is_Some (Some content))) by (by eexists).
  by rewrite orb_true_r.
Qed.

(** X8: a session in a room that asks for a file of the catalogue of the
    room, stored on disk, is sent the original name and the declared size
    of the file and then the content of the stored file, in pieces of at
    most 8192 bytes; nothing changes in the registry or on disk. *)
Theorem download_sends_content st s ci req env ch rid room fi content :
  clients st !! s = Some ci →
  req_command req = Some (command_name download) →
  client_rooms st !! s = Some rid →
  rooms st !! rid = Some room →
  room_files room !! default [] (req_file_id req) = Some fi →
  fs_files st !! path_join (room_dir room) (fi_filename fi) = Some content →
  ∃ st' pieces,
    serve_request st s req env ch
    = Some (st', Frame (RespFileInfo success (fi_name fi) (fi_size fi))
                 :: pieces, ch)
    ∧ raw_bytes pieces = content
    ∧ Forall (λ o, ∃ bs, o = Raw bs ∧ 0 < length bs ≤ chunk_limit) pieces
    ∧ registry st' = registry st ∧ storage st' = storage st.
Proof.
  intros Hc Hcmd Hb Hroom Hfi Hfile.
  rewrite (serve_request_dispatch download _ _ ci) by done.
  cbn [run_command].
  rewrite (handle_download_content _ s req rid room fi content).
  - eexists _, _. split; [reflexivity|].
    destruct (chunks_content (length content) content) as [H1 H2]; [done|].
    split; [done|]. split; [done|].
    split; [apply update_username_registry|apply update_username_storage].
  - by rewrite update_username_client_rooms.
  - by rewrite update_username_rooms.
  - done.
  - pose proof (update_username_storage st s ci req) as Hst.
    unfold storage in Hst. injection Hst as _ ->. done.
Qed.

Lemma download_sends_content_witness :
  clients alice_with_note !! 1 = Some alice_info
  ∧ rooms alice_with_note !! py "0f8fad5b"
    = Some (add_file note_info alpha_room)
  ∧ fs_files alice_with_note
      !! [py "rooms"; py "0f8fad5b"; py "7c9e6679-742.txt"] = Some abc
  ∧ ∃ st' pieces,
      serve_request alice_with_note 1
        (file_request (py "download") (py "7c9e6679-742")) default_env []
      = Some (st', Frame (RespFileInfo success (py "note.txt") 3) :: pieces, [])
      ∧ raw_bytes pieces = abc.
Proof.
  split; [reflexivity|]. split; [vm_compute; reflexivity|].
  split; [vm_compute; reflexivity|].
  destruct (download_sends_content alice_with_note 1 alice_info
              (file_request (py "download") (py "7c9e6679-742")) default_env []
              (py "0f8fad5b") (add_file note_info alpha_room) note_info abc)
    as (st' & pieces & Hserve & Hraw & _).
  { reflexivity. } { reflexivity. } { reflexivity. }
  { vm_compute. reflexivity. } { vm_compute. reflexivity. }
  { vm_compute. reflexivity. }
  exists st', pieces. split; [exact Hserve|exact Hraw].
Defined.

(** ** A file that is uploaded can be downloaded *)

(** [handle_upload] when the checks pass, the destination file is
    opened and the declared number of bytes arrives. *)
Lemma handle_upload_complete st s req env ch rid room :
  client_rooms st !! s = Some rid →
  rooms st !! rid = Some room →
  env_open_raises env = false →
  default [] (req_filename req) ≠ [] →
  (0 ≤ default 0 (req_file_size req) ≤ max_upload)%Z →
  (default 0 (req_file_size req) ≤ Z.of_nat (length (available ch)))%Z →
  (handle_upload st s req env ch).1.2
  = [ready_frame;
     Frame (RespUploaded success (py "File uploaded successfully")
                         (take 12 (env_uuid4 env)))]
  ∧ clients (handle_upload st s req env ch).1.1 = clients st
  ∧ rooms (handle_upload st s req env ch).1.1
    = <[rid := add_file (uploaded_info req env) room]> (rooms st)
  ∧ client_rooms (handle_upload st s req env ch).1.1 = client_rooms st
  ∧ fs_dirs (handle_upload st s req env ch).1.1 = fs_dirs st
  ∧ fs_files (handle_upload st s req env ch).1.1
    = <[upload_path room env (default [] (req_filename req))
        := take (Z.to_nat (default 0%Z (req_file_size req))) (available ch)]>
        (fs_files st)
  ∧ available (handle_upload st s req env ch).2
    = drop (Z.to_nat (default 0%Z (req_file_size req))) (available ch).
Proof.
  intros Hbound Hroom Hopen Hname Hsize Hall. unfold handle_upload, upload_path.
  rewrite Hbound, Hroom. rewrite bool_decide_eq_false_2 by done.
  set (filename := default [] (req_filename req)) in *.
  set (file_size := default 0%Z (req_file_size req)) in *.
  destruct (file_size >? max_upload)%Z eqn:Hgt; [apply Z.gtb_gt in Hgt; lia|].
  rewrite Hopen.
  set (file_path := path_join (room_dir room)
                      (take 12 (env_uuid4 env) ++ splitext_ext filename)).
  set (opened := set_fs_files (<[file_path := []]>) st).
  destruct (receive_file_frame (Z.to_nat file_size) file_size 0 file_path
              opened ch) as (Hcl & Hrooms & Hbind & Hdirs).
  destruct (receive_file_spec file_path (Z.to_nat file_size) file_size 0
              opened ch (Z.to_nat file_size) [])
    as (Hoof & Hfs & Hfull & _).
  { lia. } { lia. } { subst opened. simpl. apply lookup_insert_eq. }
  destruct Hfull as (Hraised & Hrec & Hrest); [lia|].
  set (rc := receive_file (Z.to_nat file_size) file_size 0 file_path opened ch)
    in *.
  rewrite Hoof, Hraised. cbn [orb].
  rewrite bool_decide_eq_false_2 by (intros ?; done). cbn [fst snd].
  split; [reflexivity|]. simpl.
  rewrite Hcl, Hrooms, Hbind, Hdirs, Hfs. subst opened. simpl.
  repeat split; try done. apply insert_insert_eq.
Qed.

(** X9: after an upload whose destination file was opened and that was
    received in full, the file identifier of the answer gives the
    uploaded bytes back: a download of it by the same session is answered
    with the name and the declared size and then exactly the bytes that
    were received.  The upload takes the declared number of bytes from
    the stream and leaves the rest. *)
Theorem upload_download_round_trip st s req env ch rid room dreq :
  client_rooms st !! s = Some rid →
  rooms st !! rid = Some room →
  env_open_raises env = false →
  default [] (req_filename req) ≠ [] →
  (0 ≤ default 0 (req_file_size req) ≤ max_upload)%Z →
  (default 0 (req_file_size req) ≤ Z.of_nat (length (available ch)))%Z →
  req_file_id dreq = Some (take 12 (env_uuid4 env)) →
  (handle_upload st s req env ch).1.2
  = [ready_frame;
     Frame (RespUploaded success (py "File uploaded successfully")
                         (take 12 (env_uuid4 env)))]
  ∧ available (handle_upload st s req env ch).2
    = drop (Z.to_nat (default 0%Z (req_file_size req))) (available ch)
  ∧ ∃ pieces,
      (handle_download (handle_upload st s req env ch).1.1 s dreq).2
      = Frame (RespFileInfo success (default [] (req_filename req))
                            (default 0%Z (req_file_size req))) :: pieces
      ∧ raw_bytes pieces
        = take (Z.to_nat (default 0%Z (req_file_size req))) (available ch).
Proof.
  intros Hbound Hroom Hopen Hname Hsize Hall Hid.
  destruct (handle_upload_complete st s req env ch rid room)
    as (Hout & _ & Hrooms & Hbind & _ & Hfiles & Hrest); try done.
  split; [done|]. split; [done|].
  set (content := take (Z.to_nat (default 0%Z (req_file_size req)))
                       (available ch)) in *.
  rewrite (handle_download_content _ s dreq rid
             (add_file (uploaded_info req env) room) (uploaded_info req env)
             content).
  - eexists. split; [reflexivity|].
    by destruct (chunks_content (length content) content) as [H1 _].
  - by rewrite Hbind.
  - rewrite Hrooms. apply lookup_insert_eq.
  - rewrite Hid. simpl. apply lookup_insert_eq.
  - rewrite Hfiles. apply lookup_insert_eq.
Qed.

Lemma upload_download_round_trip_witness :
  client_rooms alice_in_alpha !! 1 = Some (py "0f8fad5b")
  ∧ rooms alice_in_alpha !! py "0f8fad5b" = Some alpha_room
  ∧ available
      (handle_upload alice_in_alpha 1
         (upload_request (py "note.txt") 3 (py "alice")) other_env
         [Seg [x61; x62]; Seg [x63; x64]]).2 = [x64]
  ∧ ∃ pieces,
      (handle_download
         (handle_upload alice_in_alpha 1
            (upload_request (py "note.txt") 3 (py "alice")) other_env
            [Seg [x61; x62]; Seg [x63; x64]]).1.1 1
         (file_request (py "download") (py "7c9e6679-742"))).2
      = Frame (RespFileInfo success (py "note.txt") 3) :: pieces
      ∧ raw_bytes pieces = abc.
Proof.
  split; [reflexivity|]. split; [reflexivity|].
  destruct (upload_download_round_trip alice_in_alpha 1
              (upload_request (py "note.txt") 3 (py "alice")) other_env
              [Seg [x61; x62]; Seg [x63; x64]] (py "0f8fad5b") alpha_room
              (file_request (py "download") (py "7c9e6679-742")))
    as (_ & Hrest & Hdown).
  { reflexivity. } { reflexivity. } { reflexivity. }
  { vm_compute. discriminate. }
  { vm_compute. split; discriminate. } { vm_compute. discriminate. }
  { reflexivity. }
  split; [exact Hrest|exact Hdown].
Defined.

(** ** Deleting a file *)

(** X10: a session in a room that deletes a file of the catalogue of the
    room.  When the stored file exists and [os.remove] raises, the answer
    is an error and nothing changes: the entry stays in the catalogue.
    Otherwise the answer is a success, the stored file and the entry are
    gone, and a download of the same file is answered
    [File not found]. *)
Theorem delete_file_outcome st s req env rid room fi :
  client_rooms st !! s = Some rid →
  rooms st !! rid = Some room →
  room_files room !! default [] (req_file_id req) = Some fi →
  (path_exists (path_join (room_dir room) (fi_filename fi)) st
   && env_remove_raises env = true →
     handle_delete_file st s req env
     = (st, [Frame (RespMessage error (py "Failed to delete file"))]))
  ∧ (path_exists (path_join (room_dir room) (fi_filename fi)) st
     && env_remove_raises env = false →
     (handle_delete_file st s req env).2
     = [Frame (RespMessage success (py "File deleted successfully"))]
     ∧ fs_files (handle_delete_file st s req env).1
       = delete (path_join (room_dir room) (fi_filename fi)) (fs_files st)
     ∧ rooms (handle_delete_file st s req env).1
       = <[rid := set_room_files (delete (default [] (req_file_id req))) room]>
           (rooms st)
     ∧ (handle_download (handle_delete_file st s req env).1 s req).2
       = [Frame (RespMessage error (py "File not found"))]).
Proof.
  intros Hbound Hroom Hfi. unfold handle_delete_file, remove_file.
  rewrite Hbound, Hroom, Hfi. split; intros ->; cbn [fst snd].
  - done.
  - split; [done|]. split; [done|]. split; [done|].
    unfold handle_download. simpl. rewrite Hbound, lookup_insert_eq. simpl.
    by rewrite lookup_delete_eq.
Qed.

Lemma delete_file_outcome_witness :
  rooms alice_with_note !! py "0f8fad5b" = Some (add_file note_info alpha_room)
  ∧ (handle_delete_file alice_with_note 1
       (file_request (py "delete") (py "7c9e6679-742")) default_env).2
    = [Frame (RespMessage success (py "File deleted successfully"))]
  ∧ handle_delete_file alice_with_note 1
      (file_request (py "delete") (py "7c9e6679-742")) failing_remove
    = (alice_with_note, [Frame (RespMessage error (py "Failed to delete file"))]).
Proof.
  split; [vm_compute; reflexivity|].
  destruct (delete_file_outcome alice_with_note 1
              (file_request (py "delete") (py "7c9e6679-742")) default_env
              (py "0f8fad5b") (add_file note_info alpha_room) note_info)
    as [_ Hok].
  { vm_compute. reflexivity. } { vm_compute. reflexivity. }
  { vm_compute. reflexivity. }
  destruct (delete_file_outcome alice_with_note 1
              (file_request (py "delete") (py "7c9e6679-742")) failing_remove
              (py "0f8fad5b") (add_file note_info alpha_room) note_info)
    as [Hfail _].
  { vm_compute. reflexivity. } { vm_compute. reflexivity. }
  { vm_compute. reflexivity. }
  split.
  - apply Hok. vm_compute. reflexivity.
  - apply Hfail. vm_compute. reflexivity.
Defined.

(** ** Requests that are refused *)

(** X11: a request whose command is none of the nine names (or is missing) is
    answered with an error that quotes the command, [None] when there is
    none; nothing changes in the registry or on disk, and the loop of
    [handle_client] goes on with the next request. *)
Theorem unknown_command_refused st s ci req env ch :
  clients st !! s = Some ci →
  (∀ c, req_command req ≠ Some (command_name c)) →
  ∃ st',
    serve_request st s req env ch
    = Some (st',
            [Frame (RespMessage error
                      (py "Unknown command: "
                       ++ default (py "None") (req_command req)))], ch)
    ∧ registry st' = registry st
    ∧ storage st' = storage st
    ∧ ∀ json_loads envs ch0,
        receive_request json_loads ch0 = (Some req, ch) →
        request_is_empty req = false →
        handle_client json_loads (env :: envs) st s ch0
        = ((handle_client json_loads envs st' s ch).1,
           Frame (RespMessage error
                    (py "Unknown command: "
                     ++ default (py "None") (req_command req)))
           :: (handle_client json_loads envs st' s ch).2).
Proof.
  intros Hc Hne. exists (update_username st s ci req).
  assert (serve_request st s req env ch
          = Some (update_username st s ci req,
                  [Frame (RespMessage error
                            (py "Unknown command: "
                             ++ default (py "None") (req_command req)))], ch))
    as Hserve.
  { unfold serve_request. rewrite Hc. cbv zeta.
    by rewrite !bool_decide_eq_false_2 by apply Hne. }
  split; [exact Hserve|].
  split; [apply update_username_registry|].
  split; [apply update_username_storage|].
  intros json_loads envs ch0 Hrx Hempty.
  by apply (handle_client_continues json_loads env envs st s ch0 req ch
              (update_username st s ci req)
              [Frame (RespMessage error
                        (py "Unknown command: "
                         ++ default (py "None") (req_command req)))] ch).
Qed.

Lemma unknown_command_refused_witness :
  clients one_client !! 1 = Some one_client_info
  ∧ ∃ st',
      serve_request one_client 1 (simple_request (py "ping") None)
        default_env []
      = Some (st', [Frame (RespMessage error (py "Unknown command: ping"))], [])
      ∧ registry st' = registry one_client.
Proof.
  split; [reflexivity|].
  destruct (unknown_command_refused one_client 1 one_client_info
              (simple_request (py "ping") None) default_env [])
    as (st' & Hserve & Hreg & _).
  { reflexivity. }
  { intros c. destruct c; vm_compute; discriminate. }
  exists st'. split; [exact Hserve|exact Hreg].
Defined.

(** X12: a [create_room] request whose stripped name has more than 50
    characters is answered with an error and creates nothing: registry
    and disk are unchanged. *)
Theorem create_room_name_too_long st s ci req env ch :
  clients st !! s = Some ci →
  req_command req = Some (command_name create_room) →
  50 < length (strip (default [] (req_room_name req))) →
  ∃ st',
    serve_request st s req env ch
    = Some (st',
            [Frame (RespMessage error
                      (py "Room name too long (max 50 characters)"))], ch)
    ∧ registry st' = registry st ∧ storage st' = storage st.
Proof.
  intros Hc Hcmd Hlen. exists (update_username st s ci req).
  rewrite (serve_request_dispatch create_room _ _ ci) by done.
  split; [|split; [apply update_username_registry|apply update_username_storage]].
  cbn [run_command]. unfold handle_create_room.
  rewrite bool_decide_eq_false_2.
  - by rewrite (proj2 (Nat.ltb_lt _ _) Hlen).
  - intros Hnil. rewrite Hnil in Hlen. simpl in Hlen. lia.
Qed.

Lemma create_room_name_too_long_witness :
  clients one_client !! 1 = Some one_client_info
  ∧ length (strip (32%N :: replicate 51 97%N)) = 51
  ∧ ∃ st',
      serve_request one_client 1
        (create_request (32%N :: replicate 51 97%N) (py "alice"))
        default_env []
      = Some (st',
              [Frame (RespMessage error
                        (py "Room name too long (max 50 characters)"))], [])
      ∧ registry st' = registry one_client ∧ storage st' = storage one_client.
Proof.
  split; [reflexivity|]. split; [reflexivity|].
  apply (create_room_name_too_long one_client 1 one_client_info
           (create_request (32%N :: replicate 51 97%N) (py "alice"))
           default_env []).
  - reflexivity.
  - reflexivity.
  - vm_compute. lia.
Defined.

(** X13: a [join_room] request whose stripped room identifier is empty, or
    names no room of the registry, is answered with an error, and the
    session stays where it was: registry and disk are unchanged. *)
Theorem join_room_refused st s ci req env ch :
  clients st !! s = Some ci →
  req_command req = Some (command_name join_room) →
  (strip (default [] (req_room_id req)) = []
   ∨ rooms st !! strip (default [] (req_room_id req)) = None) →
  ∃ st' message,
    serve_request st s req env ch
    = Some (st', [Frame (RespMessage error message)], ch)
    ∧ (strip (default [] (req_room_id req)) = [] →
       message = py "Room ID is required")
    ∧ (strip (default [] (req_room_id req)) ≠ [] →
       message = py "Room not found")
    ∧ registry st' = registry st ∧ storage st' = storage st.
Proof.
  intros Hc Hcmd Hbad.
  rewrite (serve_request_dispatch join_room _ _ ci) by done.
  cbn [run_command]. unfold handle_join_room.
  rewrite update_username_rooms.
  destruct (decide (strip (default [] (req_room_id req)) = [])) as [Hnil|Hnil].
  - rewrite bool_decide_eq_true_2 by done.
    eexists _, _. split; [reflexivity|]. split; [done|]. split; [done|].
    split; [apply update_username_registry|apply update_username_storage].
  - rewrite bool_decide_eq_false_2 by done.
    destruct Hbad as [?|Hnone]; [done|]. rewrite Hnone.
    eexists _, _. split; [reflexivity|]. split; [done|]. split; [done|].
    split; [apply update_username_registry|apply update_username_storage].
Qed.

Lemma join_room_refused_witness :
  clients alice_in_alpha !! 1 = Some alice_info
  ∧ rooms alice_in_alpha !! py "7c9e6679" = None
  ∧ ∃ st' message,
      serve_request alice_in_alpha 1
        (room_request (py "join_room") (py "7c9e6679") (py "alice"))
        default_env []
      = Some (st', [Frame (RespMessage error message)], [])
      ∧ message = py "Room not found"
      ∧ registry st' = registry alice_in_alpha.
Proof.
  split; [reflexivity|]. split; [reflexivity|].
  destruct (join_room_refused alice_in_alpha 1 alice_info
              (room_request (py "join_room") (py "7c9e6679") (py "alice"))
              default_env [])
    as (st' & message & Hserve & _ & Hmsg & Hreg & _).
  { reflexivity. } { reflexivity. } { right. reflexivity. }
  exists st', message. split; [exact Hserve|].
  split; [apply Hmsg; vm_compute; discriminate|exact Hreg].
Defined.

(** X14: an upload with no file name, or with a declared size above 500 MB,
    is refused before anything is read: no ready response is sent, the
    stream is untouched and nothing changes.  The check of the name comes
    first. *)
Theorem upload_refused_before_ready st s req env ch rid room :
  client_rooms st !! s = Some rid →
  rooms st !! rid = Some room →
  (default [] (req_filename req) = [] →
     handle_upload st s req env ch
     = (st, [Frame (RespMessage error (py "Filename is required"))], ch))
  ∧ (default [] (req_filename req) ≠ [] →
     (max_upload < default 0 (req_file_size req))%Z →
     handle_upload st s req env ch
     = (st, [Frame (RespMessage error (py "File too large (max 500MB)"))], ch)).
Proof.
  intros Hbound Hroom. unfold handle_upload. rewrite Hbound, Hroom. split.
  - intros Hname. by rewrite bool_decide_eq_true_2.
  - intros Hname Hsize. rewrite bool_decide_eq_false_2 by done.
    by rewrite (proj2 (Z.gtb_gt _ _)) by lia.
Qed.

Lemma upload_refused_before_ready_witness :
  client_rooms alice_in_alpha !! 1 = Some (py "0f8fad5b")
  ∧ rooms alice_in_alpha !! py "0f8fad5b" = Some alpha_room
  ∧ handle_upload alice_in_alpha 1
      (upload_request (py "big.iso") (max_upload + 1) (py "alice")) other_env
      [Seg abc]
    = (alice_in_alpha,
       [Frame (RespMessage error (py "File too large (max 500MB)"))],
       [Seg abc]).
Proof.
  split; [reflexivity|]. split; [reflexivity|].
  destruct (upload_refused_before_ready alice_in_alpha 1
              (upload_request (py "big.iso") (max_upload + 1) (py "alice"))
              other_env [Seg abc] (py "0f8fad5b") alpha_room eq_refl eq_refl)
    as [_ Hbig].
  apply Hbig; [vm_compute; discriminate|vm_compute; reflexivity].
Defined.

(** ** Joining and leaving *)

Lemma remove_add_member_absent u r :
  u ∉ room_members r → remove_member u (add_member u r) = r.
Proof.
  intros Hu. destruct r as [i n o m f c d].
  unfold add_member, remove_member; simpl in *. f_equal.
  apply set_eq. intros x.
  rewrite elem_of_difference, elem_of_union, elem_of_singleton. split.
  - intros [[Hx| ->] Hn]; [done|by destruct Hn].
  - intros Hx. split; [by left|]. by intros ->.
Qed.

(** [handle_join_room] for a session that is bound to no room. *)
Lemma handle_join_room_unbound st s req rid r :
  client_rooms st !! s = None →
  strip (default [] (req_room_id req)) = rid →
  rid ≠ [] →
  rooms st !! rid = Some r →
  (handle_join_room st s req).1
  = set_client_rooms (<[s := rid]>)
      (set_rooms
         (<[rid := add_member (default Anonymous (req_username req)) r]>) st).
Proof.
  intros Hb Hrid Hne Hr. unfold handle_join_room.
  by rewrite Hrid, bool_decide_eq_false_2, Hr, Hb, Hr by done.
Qed.

(** [handle_leave_room] for a session that is bound to a room of the
    registry. *)
Lemma handle_leave_room_bound st s ci req rid r :
  clients st !! s = Some ci →
  client_rooms st !! s = Some rid →
  rooms st !! rid = Some r →
  handle_leave_room st s req
  = (set_client_rooms (delete s)
       (set_rooms (<[rid := remove_member (ci_username ci) r]>) st),
     [Frame (RespMessage success (py "Left room successfully"))]).
Proof.
  intros Hc Hb Hr. unfold handle_leave_room. by rewrite Hc, Hb, Hr.
Qed.

(** X15: a session in a room that sends [leave_room] is answered with a
    success; afterwards it is bound to no room, its user name (the one of
    the request when it carries one) is not a member of the room it
    left, the other rooms are as they were, and nothing changes on
    disk. *)
Theorem leave_room_unbinds st s ci req env ch rid r :
  clients st !! s = Some ci →
  req_command req = Some (command_name leave_room) →
  client_rooms st !! s = Some rid →
  rooms st !! rid = Some r →
  ∃ st',
    serve_request st s req env ch
    = Some (st', [Frame (RespMessage success (py "Left room successfully"))],
            ch)
    ∧ client_rooms st' = delete s (client_rooms st)
    ∧ rooms st'
      = <[rid := remove_member (default (ci_username ci) (req_username req)) r]>
          (rooms st)
    ∧ (∀ r', rooms st' !! rid = Some r' →
             default (ci_username ci) (req_username req) ∉ room_members r')
    ∧ storage st' = storage st.
Proof.
  intros Hc Hcmd Hb Hr.
  rewrite (serve_request_dispatch leave_room _ _ ci) by done.
  cbn [run_command].
  destruct (update_username_client st s ci req Hc) as (ci' & Hc' & Hu).
  rewrite (handle_leave_room_bound _ s ci' req rid r); [|done| |].
  - eexists. split; [reflexivity|].
    split; [simpl; by rewrite update_username_client_rooms|].
    assert (rooms
              (set_client_rooms (delete s)
                 (set_rooms (<[rid := remove_member (ci_username ci') r]>)
                    (update_username st s ci req)))
            = <[rid := remove_member
                         (default (ci_username ci) (req_username req)) r]>
                (rooms st)) as Hrooms.
    { simpl. by rewrite update_username_rooms, Hu. }
    split; [exact Hrooms|]. split.
    + intros r'. rewrite Hrooms, lookup_insert_eq. intros [= <-].
      apply remove_member_absent.
    + exact (update_username_storage st s ci req).
  - by rewrite update_username_client_rooms.
  - by rewrite update_username_rooms.
Qed.

Lemma leave_room_unbinds_witness :
  clients alice_in_alpha !! 1 = Some alice_info
  ∧ client_rooms alice_in_alpha !! 1 = Some (py "0f8fad5b")
  ∧ rooms alice_in_alpha !! py "0f8fad5b" = Some alpha_room
  ∧ ∃ st',
      serve_request alice_in_alpha 1 (simple_request (py "leave_room") None)
        default_env []
      = Some (st', [Frame (RespMessage success (py "Left room successfully"))],
              [])
      ∧ client_rooms st' !! 1 = None
      ∧ room_members <$> rooms st' !! py "0f8fad5b" = Some ∅.
Proof.
  split; [reflexivity|]. split; [reflexivity|]. split; [reflexivity|].
  destruct (leave_room_unbinds alice_in_alpha 1 alice_info
              (simple_request (py "leave_room") None) default_env []
              (py "0f8fad5b") alpha_room)
    as (st' & Hserve & Hbind & Hrooms & _).
  { reflexivity. } { reflexivity. } { reflexivity. } { reflexivity. }
  exists st'. split; [exact Hserve|].
  rewrite Hbind, Hrooms. split; vm_compute; reflexivity.
Defined.

(** X16: joining a room and leaving it again, by a session that was bound to
    no room and whose user name was not a member, gives the registry
    back as it was; nothing changes on disk.  The user name is the one
    that the join request carries, and the leave request carries the
    same or none. *)
Theorem join_leave_round_trip st s ci jreq lreq env env' ch u rid r :
  clients st !! s = Some ci →
  client_rooms st !! s = None →
  req_command jreq = Some (command_name join_room) →
  req_username jreq = Some u →
  strip (default [] (req_room_id jreq)) = rid →
  rid ≠ [] →
  rooms st !! rid = Some r →
  u ∉ room_members r →
  req_command lreq = Some (command_name leave_room) →
  default u (req_username lreq) = u →
  ∃ st1 out1 st2,
    serve_request st s jreq env ch = Some (st1, out1, ch)
    ∧ client_rooms st1 !! s = Some rid
    ∧ rooms st1 !! rid = Some (add_member u r)
    ∧ serve_request st1 s lreq env' ch
      = Some (st2, [Frame (RespMessage success (py "Left room successfully"))],
              ch)
    ∧ registry st2 = registry st
    ∧ storage st2 = storage st.
Proof.
  intros Hc Hb Hj Hu Hrid Hne Hr Hnot Hl Hlu.
  rewrite (serve_request_dispatch join_room _ _ ci) by done.
  cbn [run_command].
  set (U := update_username st s ci jreq).
  destruct (update_username_client st s ci jreq Hc) as (ci1 & Hc1 & Hu1).
  rewrite Hu in Hu1. simpl in Hu1. fold U in Hc1.
  assert (client_rooms U = client_rooms st) as HbU
    by apply update_username_client_rooms.
  assert (rooms U = rooms st) as HrU by apply update_username_rooms.
  pose proof (handle_join_room_unbound U s jreq rid r) as Hjoin.
  rewrite HbU, HrU, Hu in Hjoin. simpl in Hjoin.
  specialize (Hjoin Hb Hrid Hne Hr).
  destruct (handle_join_room U s jreq) as [st1 out1]. simpl in Hjoin.
  subst st1.
  set (st1 := set_client_rooms (<[s := rid]>)
                (set_rooms (<[rid := add_member u r]>) U)).
  exists st1, out1.
  assert (clients st1 !! s = Some ci1) as Hc1' by done.
  assert (client_rooms st1 !! s = Some rid) as Hb1.
  { subst st1. simpl. apply lookup_insert_eq. }
  assert (rooms st1 !! rid = Some (add_member u r)) as Hr1.
  { subst st1. simpl. apply lookup_insert_eq. }
  rewrite (serve_request_dispatch leave_room _ _ ci1) by done.
  cbn [run_command].
  destruct (update_username_client st1 s ci1 lreq Hc1') as (ci2 & Hc2 & Hu2).
  rewrite Hu1, Hlu in Hu2.
  rewrite (handle_leave_room_bound _ s ci2 lreq rid (add_member u r));
    [|done| |].
  - eexists. split; [reflexivity|]. split; [done|]. split; [done|].
    split; [reflexivity|]. rewrite Hu2. split.
    + unfold registry. simpl.
      rewrite update_username_rooms, update_username_client_rooms.
      subst st1. simpl. rewrite HrU, HbU.
      rewrite insert_insert_eq, remove_add_member_absent by done.
      rewrite insert_id by done. by rewrite delete_insert_id.
    + transitivity (storage st1).
      * exact (update_username_storage st1 s ci1 lreq).
      * exact (update_username_storage st s ci jreq).
  - by rewrite update_username_client_rooms.
  - by rewrite update_username_rooms.
Qed.

Lemma join_leave_round_trip_witness :
  clients two_clients !! 2 = Some bob_info
  ∧ client_rooms two_clients !! 2 = None
  ∧ rooms two_clients !! py "0f8fad5b" = Some alpha_room
  ∧ ∃ st1 out1 st2,
      serve_request two_clients 2
        (room_request (py "join_room") (py "0f8fad5b") (py "bob"))
        default_env [] = Some (st1, out1, [])
      ∧ rooms st1 !! py "0f8fad5b" = Some (add_member (py "bob") alpha_room)
      ∧ serve_request st1 2 (simple_request (py "leave_room") None)
          other_env []
        = Some (st2,
                [Frame (RespMessage success (py "Left room successfully"))],
                [])
      ∧ registry st2 = registry two_clients.
Proof.
  split; [reflexivity|]. split; [reflexivity|]. split; [reflexivity|].
  destruct (join_leave_round_trip two_clients 2 bob_info
              (room_request (py "join_room") (py "0f8fad5b") (py "bob"))
              (simple_request (py "leave_room") None) default_env other_env []
              (py "bob") (py "0f8fad5b") alpha_room)
    as (st1 & out1 & st2 & Hjoin & _ & Hroom & Hleave & Hreg & _).
  { reflexivity. } { reflexivity. } { reflexivity. } { reflexivity. }
  { reflexivity. } { vm_compute. discriminate. } { reflexivity. }
  { unfold alpha_room. cbn [room_members].
    intros H. apply elem_of_singleton_1 in H. vm_compute in H. discriminate. }
  { reflexivity. } { reflexivity. }
  exists st1, out1, st2.
  split; [exact Hjoin|]. split; [exact Hroom|].
  split; [exact Hleave|exact Hreg].
Defined.

(** ** The end of a connection in a room *)

(** X17: when the peer of a session that is in a room has closed, the loop of
    [handle_client] ends without an answer; the user name of the session
    is taken out of the members of the room, and the session out of
    [client_rooms] and [clients]. *)
Theorem connection_closed_leaves_room json_loads envs st s ci rid r :
  clients st !! s = Some ci →
  client_rooms st !! s = Some rid →
  rooms st !! rid = Some r →
  (handle_client json_loads envs st s []).2 = []
  ∧ rooms (handle_client json_loads envs st s []).1
    = <[rid := remove_member (ci_username ci) r]> (rooms st)
  ∧ client_rooms (handle_client json_loads envs st s []).1
    = delete s (client_rooms st)
  ∧ clients (handle_client json_loads envs st s []).1 = delete s (clients st).
Proof.
  intros Hc Hb Hr.
  assert (handle_client json_loads envs st s [] = (disconnect_client st s, []))
    as -> by by destruct envs.
  unfold disconnect_client. by rewrite Hb, Hr, Hc.
Qed.

Lemma connection_closed_leaves_room_witness :
  clients alice_in_alpha !! 1 = Some alice_info
  ∧ client_rooms alice_in_alpha !! 1 = Some (py "0f8fad5b")
  ∧ rooms alice_in_alpha !! py "0f8fad5b" = Some alpha_room
  ∧ rooms (handle_client payload_as_command [default_env] alice_in_alpha 1 []).1
    = <[py "0f8fad5b" := remove_member (py "alice") alpha_room]>
        (rooms alice_in_alpha).
Proof.
  split; [reflexivity|]. split; [reflexivity|]. split; [reflexivity|].
  destruct (connection_closed_leaves_room payload_as_command [default_env]
              alice_in_alpha 1 alice_info (py "0f8fad5b") alpha_room
              eq_refl eq_refl eq_refl) as (_ & Hrooms & _).
  exact Hrooms.
Defined.

(** ** What the listings show *)

(** X18: after an upload whose destination file was opened and that was
    received in full, every session of the room that lists the files
    gets the new file in the list, with its identifier, name, declared
    size, type, uploader and date. *)
Theorem uploaded_file_is_listed st s req env ch rid room s' lreq :
  client_rooms st !! s = Some rid →
  rooms st !! rid = Some room →
  env_open_raises env = false →
  default [] (req_filename req) ≠ [] →
  (0 ≤ default 0 (req_file_size req) ≤ max_upload)%Z →
  (default 0 (req_file_size req) ≤ Z.of_nat (length (available ch)))%Z →
  client_rooms st !! s' = Some rid →
  ∃ files,
    (handle_list_files (handle_upload st s req env ch).1.1 s' lreq).2
    = [Frame (RespFiles success files)]
    ∧ mkFileSummary (take 12 (env_uuid4 env)) (default [] (req_filename req))
        (default 0%Z (req_file_size req)) (fi_type (uploaded_info req env))
        (default Anonymous (req_uploader req)) (env_now env) ∈ files.
Proof.
  intros Hbound Hroom Hopen Hname Hsize Hall Hbound'.
  destruct (handle_upload_complete st s req env ch rid room)
    as (_ & _ & Hrooms & Hbind & _); try done.
  unfold handle_list_files. rewrite Hbind, Hbound', Hrooms, lookup_insert_eq.
  eexists. split; [reflexivity|].
  unfold get_file_list. apply list_elem_of_In, in_map_iff.
  exists (take 12 (env_uuid4 env), uploaded_info req env). split; [done|].
  apply list_elem_of_In, elem_of_map_to_list. simpl. apply lookup_insert_eq.
Qed.

Lemma uploaded_file_is_listed_witness :
  client_rooms alice_in_alpha !! 1 = Some (py "0f8fad5b")
  ∧ rooms alice_in_alpha !! py "0f8fad5b" = Some alpha_room
  ∧ ∃ files,
      (handle_list_files
         (handle_upload alice_in_alpha 1
            (upload_request (py "note.txt") 3 (py "alice")) other_env
            [Seg abc]).1.1 1 (simple_request (py "list") None)).2
      = [Frame (RespFiles success files)]
      ∧ mkFileSummary (py "7c9e6679-742") (py "note.txt") 3
          (py "application/octet-stream") (py "alice")
          (py "2025-01-01 00:05:00") ∈ files.
Proof.
  split; [reflexivity|]. split; [reflexivity|].
  apply (uploaded_file_is_listed alice_in_alpha 1
           (upload_request (py "note.txt") 3 (py "alice")) other_env
           [Seg abc] (py "0f8fad5b") alpha_room 1
           (simple_request (py "list") None)).
  - reflexivity.
  - reflexivity.
  - reflexivity.
  - vm_compute. discriminate.
  - vm_compute. split; discriminate.
  - vm_compute. discriminate.
  - reflexivity.
Defined.

(** X19: after a valid [create_room] the list that [list_rooms] sends has an
    entry for the new room, with its identifier, its stripped name, the
    user name of the request as owner, one member and the date of its
    creation; the directory of the room is on disk. *)
Theorem created_room_is_listed st s ci req env ch name :
  clients st !! s = Some ci →
  req_command req = Some (command_name create_room) →
  strip (default [] (req_room_name req)) = name →
  name ≠ [] →
  length name ≤ 50 →
  ∃ st' out,
    serve_request st s req env ch = Some (st', out, ch)
    ∧ mkRoomSummary (take 8 (env_uuid4 env)) name
        (default Anonymous (req_username req)) 1 (env_now env)
      ∈ rooms_list st'
    ∧ path_exists (path_join rooms_root (take 8 (env_uuid4 env))) st' = true
    ∧ ∀ s' lreq,
        handle_list_rooms st' s' lreq
        = (st', [Frame (RespRooms success (rooms_list st'))]).
Proof.
  intros Hc Hcmd Hname Hne Hlen.
  rewrite (serve_request_dispatch create_room _ _ ci) by done.
  cbn [run_command]. unfold handle_create_room. rewrite Hname.
  rewrite bool_decide_eq_false_2 by done.
  destruct (50 <? length name) eqn:Hlt; [apply Nat.ltb_lt in Hlt; lia|].
  cbn [Room_init fst snd]. eexists _, _. split; [reflexivity|].
  split; [|split; [|done]].
  - apply elem_of_rooms_list. eexists _, _. split.
    + simpl. apply lookup_insert_eq.
    + unfold room_summary, add_member.
      cbn [fst snd room_name room_owner room_members room_created_at].
      f_equal. rewrite (left_id_L ∅ (∪)). symmetry. apply size_singleton.
  - unfold path_exists. apply orb_true_iff. left.
    apply bool_decide_eq_true_2. simpl.
    apply elem_of_union. right. unfold rooms_root, path_join. simpl.
    apply elem_of_union. right. apply elem_of_union. left.
    by apply elem_of_singleton_2.
Qed.

Lemma created_room_is_listed_witness :
  clients one_client !! 1 = Some one_client_info
  ∧ strip (py " Alpha ") = py "Alpha"
  ∧ ∃ st' out,
      serve_request one_client 1 (create_request (py " Alpha ") (py "alice"))
        default_env [] = Some (st', out, [])
      ∧ mkRoomSummary (py "0f8fad5b") (py "Alpha") (py "alice") 1
          (py "2025-01-01 00:00:00") ∈ rooms_list st'
      ∧ path_exists [py "rooms"; py "0f8fad5b"] st' = true.
Proof.
  split; [reflexivity|]. split; [reflexivity|].
  destruct (created_room_is_listed one_client 1 one_client_info
              (create_request (py " Alpha ") (py "alice")) default_env []
              (py "Alpha"))
    as (st' & out & Hserve & Hlist & Hdir & _).
  { reflexivity. } { reflexivity. } { reflexivity. }
  { vm_compute. discriminate. } { vm_compute. lia. }
  exists st', out. split; [exact Hserve|]. split; [exact Hlist|exact Hdir].
Defined.

(** ** Rooms are stored under their identifiers *)

Lemma ids_match_disconnect st s :
  ids_match st → ids_match (disconnect_client st s).
Proof.
  intros Hids. unfold disconnect_client.
  destruct (client_rooms st !! s) as [rid|]; [|by apply (ids_match_same_rooms st)].
  destruct (rooms st !! rid) as [r|] eqn:Hr.
  - destruct (clients st !! s) as [ci|]; [|done].
    apply (ids_match_same_rooms
             (set_rooms (<[rid := remove_member (ci_username ci) r]>) st));
      [done|].
    apply ids_match_insert; [done|]. simpl. by apply Hids.
  - by apply (ids_match_same_rooms st).
Qed.

(** X20: whatever a connection does, every room of the registry stays stored
    under its own identifier: the key of a room in [rooms] is the [id]
    of the room. *)
Theorem handle_client_ids_match json_loads envs st s ch :
  ids_match st →
  ids_match (handle_client json_loads envs st s ch).1.
Proof.
  revert st ch. induction envs as [|env envs IH]; intros st ch Hids; simpl.
  - by apply ids_match_disconnect.
  - destruct (receive_request json_loads ch) as [[req|] ch1];
      [|by apply ids_match_disconnect].
    destruct (request_is_empty req); [by apply ids_match_disconnect|].
    destruct (serve_request st s req env ch1) as [[[st1 out] ch2]|] eqn:Hs;
      [|by apply ids_match_disconnect].
    pose proof (IH st1 ch2 (ids_match_serve_request _ _ _ _ _ _ _ _ Hids Hs))
      as H.
    by destruct (handle_client json_loads envs st1 s ch2).
Qed.

Lemma handle_client_ids_match_witness :
  ids_match alice_in_alpha
  ∧ ids_match
      (handle_client payload_as_command [default_env; other_env]
         alice_in_alpha 1
         [Seg [x00; x00; x00; x04]; Seg [x6c; x69; x73; x74]]).1.
Proof.
  split; [exact ids_match_alice_in_alpha|].
  apply handle_client_ids_match. exact ids_match_alice_in_alpha.
Defined.
